(** * Cache-aside coordination of the task service

    A shallow embedding of the task routes of the backend server
    ([GET /tasks], [POST /tasks], [GET /tasks/:id], [PUT /tasks/:id],
    [DELETE /tasks/:id]) together with the two collaborators they talk to:
    the relational store behind [Task] and the Redis client.

    The definitions come in three layers:
    - [JSON]: the values exchanged with the cache, [JSON.stringify] and
      [JSON.parse];
    - [Backend]: the store, the cache with per-entry expiry, and the
      request monad in which the handlers run;
    - [Server]: the handlers, written statement by statement after the
      source.
    [History] adds sequential histories of requests, and [Accounts] the
    authentication middleware, the account routes and the storage client.
    [JSONFacts] then proves that parsing reads back what was printed,
    [ServerFacts] and [TaskRouteFacts] the properties of the task routes,
    and [AccountsFacts] those of authentication and accounts. *)

From Stdlib Require Import ZArith NArith String Ascii List Lia.
From Stdlib Require Import Decimal DecimalFacts DecimalN DecimalString.
From stdpp Require Import base option list gmap strings.

Local Open Scope Z_scope.

#[local] Arguments String.append !_ _ / : simpl nomatch.

(* ===================================================================== *)
(** ** JSON values, serialisation and parsing *)
(* ===================================================================== *)

Module JSON.

(** Strings are kept as their UTF-8 bytes, the form in which they travel to
    and from Redis; text is assumed to be well-formed Unicode.  A number
    is an integer that a JavaScript number holds exactly (below 2^53 in
    magnitude, as identifiers are): on those, printing gives the decimal
    digits and parsing reads them back.  Other numbers (larger integers,
    fractions, exponents) are outside the modelled fragment; the
    properties of the routes only ever parse a text that the service
    itself printed. *)

Unset Elimination Schemes.
Inductive json : Type :=
  | JNull
  | JBool (b : bool)
  | JNum (n : Z)
  | JStr (s : string)
  | JArr (items : list json)
  | JObj (members : list (string * json)).
Set Elimination Schemes.

(** Induction principle that reaches below arrays and objects. *)
Section json_ind.
Variable P : json -> Prop.
Hypothesis Hnull : P JNull.
Hypothesis Hbool : forall b, P (JBool b).
Hypothesis Hnum : forall n, P (JNum n).
Hypothesis Hstr : forall s, P (JStr s).
Hypothesis Harr : forall l, Forall P l -> P (JArr l).
Hypothesis Hobj : forall m, Forall (fun kv => P (snd kv)) m -> P (JObj m).

Fixpoint json_ind (v : json) : P v :=
  match v with
  | JNull => Hnull
  | JBool b => Hbool b
  | JNum n => Hnum n
  | JStr s => Hstr s
  | JArr l =>
      Harr l ((fix go (l : list json) : Forall P l :=
                 match l with
                 | [] => Forall_nil_2 P
                 | x :: l' => Forall_cons_2 P x l' (json_ind x) (go l')
                 end) l)
  | JObj m =>
      Hobj m ((fix go (m : list (string * json))
                 : Forall (fun kv => P (snd kv)) m :=
                 match m with
                 | [] => Forall_nil_2 _
                 | kv :: m' =>
                     Forall_cons_2 (fun kv => P (snd kv)) kv m'
                                 (json_ind (snd kv)) (go m')
                 end) m)
  end.
End json_ind.

(** *** Characters *)

Definition dquote : ascii := "034"%char.
Definition bslash : ascii := "\"%char.

Definition str1 (c : ascii) : string := String c EmptyString.

(** Lower-case hexadecimal digit of a value below 16. *)
Definition hex_digit (n : N) : ascii :=
  ascii_of_N (if (n <? 10)%N then 48 + n else 87 + n)%N.

Definition hex_value (c : ascii) : option N :=
  let n := N_of_ascii c in
  if ((48 <=? n) && (n <=? 57))%N then Some (n - 48)%N
  else if ((97 <=? n) && (n <=? 102))%N then Some (n - 87)%N
  else if ((65 <=? n) && (n <=? 70))%N then Some (n - 55)%N
  else None.

Definition is_ws (c : ascii) : bool :=
  Ascii.eqb c " " || Ascii.eqb c "009" || Ascii.eqb c "010" || Ascii.eqb c "013".

(** *** [JSON.stringify] *)

(** QuoteJSONString, one code unit at a time: the two-character escapes,
    [\u00xx] for the remaining control characters, everything else as it
    is. *)
Definition quote_char (c : ascii) : string :=
  if Ascii.eqb c dquote then String bslash (str1 dquote)
  else if Ascii.eqb c bslash then String bslash (str1 bslash)
  else if Ascii.eqb c "008" then String bslash "b"
  else if Ascii.eqb c "009" then String bslash "t"
  else if Ascii.eqb c "010" then String bslash "n"
  else if Ascii.eqb c "012" then String bslash "f"
  else if Ascii.eqb c "013" then String bslash "r"
  else if (N_of_ascii c <? 32)%N then
    String bslash
      (String "u" (String "0" (String "0"
        (String (hex_digit (N_of_ascii c / 16))
          (str1 (hex_digit (N_of_ascii c mod 16)))))))
  else str1 c.

Fixpoint quote_body (s : string) : string :=
  match s with
  | EmptyString => EmptyString
  | String c s' => quote_char c +:+ quote_body s'
  end.

Definition quote (s : string) : string :=
  String dquote (quote_body s +:+ str1 dquote).

(** Number::toString on an integer that a JavaScript number holds exactly
    (below 2^53 in magnitude, where identifiers and timestamps lie):
    decimal digits, a minus sign when negative.  Beyond that range
    JavaScript prints the nearest double, which this does not follow. *)
Definition number_to_string (n : Z) : string :=
  let digits := NilEmpty.string_of_uint (N.to_uint (Z.abs_N n)) in
  if n <? 0 then String "-" digits else digits.

(** Elements joined by commas. *)
Fixpoint join (parts : list string) : string :=
  match parts with
  | [] => EmptyString
  | [p] => p
  | p :: ps => p +:+ String "," (join ps)
  end.

Fixpoint stringify (v : json) : string :=
  match v with
  | JNull => "null"
  | JBool true => "true"
  | JBool false => "false"
  | JNum n => number_to_string n
  | JStr s => quote s
  | JArr l => String "[" (join (map stringify l) +:+ "]")
  | JObj m =>
      String "{"
        (join (map (fun kv => quote (fst kv) +:+ String ":" (stringify (snd kv))) m)
         +:+ "}")
  end.

(** *** Property order of an object

    The keys of an ordinary object enumerate array indices first, in
    ascending numeric order, then the other keys in the order in which
    they were created; defining a key that exists replaces its value in
    place. *)

Fixpoint scan_digits (s : string) : uint * string :=
  match s with
  | EmptyString => (Nil, s)
  | String c r =>
      let '(d, r') := scan_digits r in
      match uint_of_char c (Some d) with
      | Some d' => (d', r')
      | None => (Nil, s)
      end
  end.

(** A run of digits is a JSON integer (and a canonical index) when it is
    non-empty and has no superfluous leading zero. *)
Definition canonical_digits (d : uint) : bool :=
  uint_beq (unorm d) d.

Definition array_index (k : string) : option N :=
  let '(d, r) := scan_digits k in
  match r with
  | EmptyString =>
      if canonical_digits d && (N.of_uint d <? 4294967295)%N
      then Some (N.of_uint d) else None
  | _ => None
  end.

Definition key_before (k k' : string) : bool :=
  match array_index k, array_index k' with
  | Some i, Some j => (i <? j)%N
  | Some _, None => true
  | None, _ => false
  end.

Fixpoint obj_replace (k : string) (v : json) (o : list (string * json))
  : list (string * json) :=
  match o with
  | [] => []
  | (k', v') :: o' =>
      if String.eqb k' k then (k', v) :: o' else (k', v') :: obj_replace k v o'
  end.

Fixpoint obj_insert (k : string) (v : json) (o : list (string * json))
  : list (string * json) :=
  match o with
  | [] => [(k, v)]
  | (k', v') :: o' =>
      if key_before k k' then (k, v) :: o else (k', v') :: obj_insert k v o'
  end.

Definition obj_define (o : list (string * json)) (kv : string * json)
  : list (string * json) :=
  if existsb (fun e => String.eqb (fst e) (fst kv)) o
  then obj_replace (fst kv) (snd kv) o
  else obj_insert (fst kv) (snd kv) o.

Definition obj_of_entries (ms : list (string * json)) : list (string * json) :=
  fold_left obj_define ms [].

(** *** [JSON.parse] *)

Fixpoint skip_ws (s : string) : string :=
  match s with
  | String c r => if is_ws c then skip_ws r else s
  | EmptyString => s
  end.

(** [expect lit s] strips the literal [lit] from the front of [s]. *)
Fixpoint expect (lit s : string) : option string :=
  match lit, s with
  | EmptyString, _ => Some s
  | String a lit', String b s' => if Ascii.eqb a b then expect lit' s' else None
  | String _ _, EmptyString => None
  end.

Definition unescape (e : ascii) : option ascii :=
  if Ascii.eqb e dquote then Some dquote
  else if Ascii.eqb e bslash then Some bslash
  else if Ascii.eqb e "/" then Some "/"%char
  else if Ascii.eqb e "b" then Some "008"%char
  else if Ascii.eqb e "f" then Some "012"%char
  else if Ascii.eqb e "n" then Some "010"%char
  else if Ascii.eqb e "r" then Some "013"%char
  else if Ascii.eqb e "t" then Some "009"%char
  else None.

Definition hex4 (h1 h2 h3 h4 : ascii) : option N :=
  a ← hex_value h1; b ← hex_value h2; c ← hex_value h3; d ← hex_value h4;
  Some (((a * 16 + b) * 16 + c) * 16 + d)%N.

(** UTF-8 bytes of a code unit of the basic plane.  A surrogate has no
    UTF-8 form of its own: [parse_chars] combines an escaped pair into the
    character it denotes, and a lone escaped surrogate, which has no
    well-formed text, is outside the modelled fragment. *)
Definition utf8_encode (cp : N) : option string :=
  if (cp <? 128)%N then Some (str1 (ascii_of_N cp))
  else if (cp <? 2048)%N then
    Some (String (ascii_of_N (192 + cp / 64)) (str1 (ascii_of_N (128 + cp mod 64))))
  else if ((55296 <=? cp) && (cp <=? 57343))%N then None
  else
    Some (String (ascii_of_N (224 + cp / 4096))
           (String (ascii_of_N (128 + (cp / 64) mod 64))
             (str1 (ascii_of_N (128 + cp mod 64))))).

Definition is_high_surrogate (cp : N) : bool := ((55296 <=? cp) && (cp <=? 56319))%N.

Definition is_low_surrogate (cp : N) : bool := ((56320 <=? cp) && (cp <=? 57343))%N.

(** UTF-8 bytes of the character a surrogate pair denotes. *)
Definition utf8_encode_pair (hi lo : N) : string :=
  let cp := (65536 + (hi - 55296) * 1024 + (lo - 56320))%N in
  String (ascii_of_N (240 + cp / 262144))
    (String (ascii_of_N (128 + (cp / 4096) mod 64))
      (String (ascii_of_N (128 + (cp / 64) mod 64))
        (str1 (ascii_of_N (128 + cp mod 64))))).

(** The characters of a string literal after its opening quote, up to and
    including the closing quote. *)
Fixpoint parse_chars (s : string) : option (string * string) :=
  match s with
  | EmptyString => None
  | String c r =>
      if Ascii.eqb c dquote then Some (EmptyString, r)
      else if Ascii.eqb c bslash then
        match r with
        | String e r1 =>
            if Ascii.eqb e "u" then
              match r1 with
              | String h1 (String h2 (String h3 (String h4 r2))) =>
                  cp ← hex4 h1 h2 h3 h4;
                  if is_high_surrogate cp then
                    match r2 with
                    | String b (String u
                        (String l1 (String l2 (String l3 (String l4 r3))))) =>
                        if Ascii.eqb b bslash && Ascii.eqb u "u" then
                          lo ← hex4 l1 l2 l3 l4;
                          if is_low_surrogate lo then
                            '(str, rest) ← parse_chars r3;
                            Some (utf8_encode_pair cp lo +:+ str, rest)
                          else None
                        else None
                    | _ => None
                    end
                  else
                    bytes ← utf8_encode cp;
                    '(str, rest) ← parse_chars r2;
                    Some (bytes +:+ str, rest)
              | _ => None
              end
            else
              b ← unescape e;
              '(str, rest) ← parse_chars r1;
              Some (String b str, rest)
        | EmptyString => None
        end
      else if (N_of_ascii c <? 32)%N then None
      else
        '(str, rest) ← parse_chars r;
        Some (String c str, rest)
  end.

Definition starts_fraction (s : string) : bool :=
  match s with
  | String c _ => Ascii.eqb c "." || Ascii.eqb c "e" || Ascii.eqb c "E"
  | EmptyString => false
  end.

(** A JSON number of the integer fragment: an optional minus sign and
    digits without a leading zero, read exactly.  It agrees with
    JSON.parse on integers below 2^53 in magnitude; a fraction or an
    exponent, which JSON.parse accepts, is outside the fragment and
    answered [None], and a larger integer is not rounded to a double.
    The routes are specified on texts printed by [stringify] from task
    lists, which stay inside the fragment. *)
Definition parse_number (s : string) : option (Z * string) :=
  let '(neg, s1) :=
    match s with
    | String c r => if Ascii.eqb c "-" then (true, r) else (false, s)
    | EmptyString => (false, s)
    end in
  let '(d, r) := scan_digits s1 in
  if canonical_digits d && negb (starts_fraction r) then
    let n := Z.of_N (N.of_uint d) in
    Some (if neg then - n else n, r)
  else None.

Fixpoint parse_value (fuel : nat) (s : string) {struct fuel}
  : option (json * string) :=
  match fuel with
  | O => None
  | S fuel =>
      match skip_ws s with
      | EmptyString => None
      | String c r =>
          if Ascii.eqb c "n" then r' ← expect "ull" r; Some (JNull, r')
          else if Ascii.eqb c "t" then r' ← expect "rue" r; Some (JBool true, r')
          else if Ascii.eqb c "f" then r' ← expect "alse" r; Some (JBool false, r')
          else if Ascii.eqb c dquote then
            '(str, r') ← parse_chars r; Some (JStr str, r')
          else if Ascii.eqb c "[" then
            match skip_ws r with
            | EmptyString => None
            | String c' r' =>
                if Ascii.eqb c' "]" then Some (JArr [], r')
                else '(vs, r'') ← parse_elements fuel r; Some (JArr vs, r'')
            end
          else if Ascii.eqb c "{" then
            match skip_ws r with
            | EmptyString => None
            | String c' r' =>
                if Ascii.eqb c' "}" then Some (JObj [], r')
                else
                  '(ms, r'') ← parse_members fuel r;
                  Some (JObj (obj_of_entries ms), r'')
            end
          else
            '(n, r') ← parse_number (String c r); Some (JNum n, r')
      end
  end
with parse_elements (fuel : nat) (s : string) {struct fuel}
  : option (list json * string) :=
  match fuel with
  | O => None
  | S fuel =>
      '(v, r) ← parse_value fuel s;
      match skip_ws r with
      | EmptyString => None
      | String c r' =>
          if Ascii.eqb c "," then
            '(vs, r'') ← parse_elements fuel r'; Some (v :: vs, r'')
          else if Ascii.eqb c "]" then Some ([v], r')
          else None
      end
  end
with parse_members (fuel : nat) (s : string) {struct fuel}
  : option (list (string * json) * string) :=
  match fuel with
  | O => None
  | S fuel =>
      match skip_ws s with
      | EmptyString => None
      | String c r =>
          if Ascii.eqb c dquote then
            '(k, r1) ← parse_chars r;
            match skip_ws r1 with
            | EmptyString => None
            | String c1 r2 =>
                if Ascii.eqb c1 ":" then
                  '(v, r3) ← parse_value fuel r2;
                  match skip_ws r3 with
                  | EmptyString => None
                  | String c3 r4 =>
                      if Ascii.eqb c3 "," then
                        '(ms, r5) ← parse_members fuel r4;
                        Some ((k, v) :: ms, r5)
                      else if Ascii.eqb c3 "}" then Some ([(k, v)], r4)
                      else None
                  end
                else None
            end
          else None
      end
  end.

(** The whole text must be one value, white space around it allowed; a
    [None] is the [SyntaxError] the call throws. *)
Definition parse (s : string) : option json :=
  '(v, r) ← parse_value (S (String.length s)) s;
  match skip_ws r with
  | EmptyString => Some v
  | String _ _ => None
  end.

(** What a value looks like once it has been through an object store:
    every object rebuilt key by key. *)
Fixpoint normalize (v : json) : json :=
  match v with
  | JArr l => JArr (map normalize l)
  | JObj m => JObj (obj_of_entries (map (fun kv => (fst kv, normalize (snd kv))) m))
  | _ => v
  end.

(** *** Vocabulary of the round-trip argument *)

(** The text after a value printed by [stringify]: nothing, or one of the
    three structural characters. *)
Definition delimited (s : string) : bool :=
  match s with
  | EmptyString => true
  | String c _ => Ascii.eqb c "," || Ascii.eqb c "]" || Ascii.eqb c "}"
  end.

Definition is_digit (c : ascii) : bool :=
  match uint_of_char c (Some Nil) with Some _ => true | None => false end.

Definition number_start (c : ascii) : bool := Ascii.eqb c "-" || is_digit c.

(** A character that can begin a printed value. *)
Definition value_start (c : ascii) : bool :=
  number_start c || Ascii.eqb c "n" || Ascii.eqb c "t" || Ascii.eqb c "f"
  || Ascii.eqb c dquote || Ascii.eqb c "[" || Ascii.eqb c "{".

Definition member_text (kv : string * json) : string :=
  quote (fst kv) +:+ String ":" (stringify (snd kv)).

(** [parses v]: the printed form of [v], followed by a delimiter, is read
    back as [normalize v] by any run with more fuel than characters. *)
Definition parses (v : json) : Prop :=
  forall fuel rest,
    delimited rest = true ->
    (String.length (stringify v) < fuel)%nat ->
    parse_value fuel (stringify v +:+ rest) = Some (normalize v, rest).

End JSON.

(* ===================================================================== *)
(** ** The collaborators: task store, Redis, the response object *)
(* ===================================================================== *)

Module Backend.
Import JSON.

(** Modelled from the spec: the [Task] model ([./src/models/index.js]) is
    not among the sources.  A task has an identifier assigned by the
    store, a description (text) and a completed flag (boolean); the store
    rejects a field value of another type. *)
Record Task := mkTask { id : Z; description : string; completed : bool }.

(** [toJSON] of a model instance, as [JSON.stringify] and [res.json] see
    it. *)
Definition Task_toJSON (t : Task) : json :=
  JObj [("id", JNum (id t)); ("description", JStr (description t));
        ("completed", JBool (completed t))].

Definition tasks_toJSON (ts : list Task) : json := JArr (map Task_toJSON ts).

(** The table: its rows in the store's natural order and the next
    identifier to hand out. *)
Record Store := mkStore { rows : list Task; next_id : Z }.

(** Redis: each key holds a value and the instant at which it expires. *)
Abbreviation Cache := (gmap string (string * Z)).

Record World := mkWorld { store : Store; cache : Cache; clock : Z }.

(** What [GET key] answers at instant [now]: an expired entry is gone. *)
Definition cache_lookup (c : Cache) (now : Z) (k : string) : option string :=
  match c !! k with
  | Some (v, expires) => if now <? expires then Some v else None
  | None => None
  end.

(** Time passing between two requests. *)
Definition tick (d : Z) (w : World) : World :=
  mkWorld (store w) (cache w) (clock w + d).

(** The calls a handler makes on its collaborators. *)
Inductive Event :=
  | RedisGet (k : string)
  | RedisSetEx (k : string) (ttl : Z) (v : string)
  | RedisDel (k : string)
  | FindAll
  | FindByPk (k : Z)
  | Create (description completed : option json)
  | Update (k : Z) (description completed : option json)
  | Destroy (k : Z).

Inductive Op :=
  | OpRedisGet | OpRedisSetEx | OpRedisDel
  | OpFindAll | OpFindByPk | OpCreate | OpUpdate | OpDestroy.

Definition op_of (e : Event) : Op :=
  match e with
  | RedisGet _ => OpRedisGet
  | RedisSetEx _ _ _ => OpRedisSetEx
  | RedisDel _ => OpRedisDel
  | FindAll => OpFindAll
  | FindByPk _ => OpFindByPk
  | Create _ _ => OpCreate
  | Update _ _ _ => OpUpdate
  | Destroy _ => OpDestroy
  end.

Definition is_store_event (e : Event) : bool :=
  match e with
  | RedisGet _ | RedisSetEx _ _ _ | RedisDel _ => false
  | _ => true
  end.

Inductive Error :=
  | RedisError        (* the Redis client rejected the command *)
  | DatabaseError     (* the store rejected the query *)
  | SyntaxError.      (* JSON.parse *)

Definition error_of (e : Event) : Error :=
  if is_store_event e then DatabaseError else RedisError.

(** The response object: [statusCode] starts at 200, [body] is [None]
    until something is sent. *)
Record Res := mkRes { statusCode : nat; body : option string }.

(** Everything a running handler can read or change. *)
Record Ctx := mkCtx {
  world : World;
  res : Res;
  trace : list Event;      (* calls on the collaborators, oldest first *)
  console : list string    (* console.log and console.error *)
}.

Definition start (w : World) : Ctx := mkCtx w (mkRes 200 None) [] [].

(** *** The request monad

    A handler is an [async] function over the context.  [Ok] is its
    promise resolving, [Throw] its promise rejecting: an exception that no
    [try]/[catch] of the handler caught.  What the framework does with a
    rejected handler is outside the sources and is not modelled; the
    response is whatever the handler itself wrote into [res]. *)

Inductive Result (A : Type) :=
  | Ok (a : A)
  | Throw (e : Error).
Arguments Ok {A} a.
Arguments Throw {A} e.

Definition M (A : Type) : Type := Ctx -> Result A * Ctx.

#[global] Instance M_ret : MRet M := fun A (a : A) c => (Ok a, c).

#[global] Instance M_bind : MBind M := fun A B (k : A -> M B) (m : M A) c =>
  match m c with
  | (Ok a, c') => k a c'
  | (Throw e, c') => (Throw e, c')
  end.

Definition throw {A} (e : Error) : M A := fun c => (Throw e, c).

(** [try { body } catch (error) { handler }] *)
Definition try_catch {A} (body : M A) (handler : Error -> M A) : M A :=
  fun c =>
    match body c with
    | (Ok a, c') => (Ok a, c')
    | (Throw e, c') => handler e c'
    end.

Definition get_world : M World := fun c => (Ok (world c), c).

Definition put_world (w : World) : M unit :=
  fun c => (Ok tt, mkCtx w (res c) (trace c) (console c)).

Definition console_log (line : string) : M unit :=
  fun c => (Ok tt, mkCtx (world c) (res c) (trace c) (console c ++ [line])).

Definition error_name (e : Error) : string :=
  match e with
  | RedisError => "RedisError"
  | DatabaseError => "DatabaseError"
  | SyntaxError => "SyntaxError"
  end.

Definition console_error (e : Error) : M unit := console_log (error_name e).

(** [res.status(code)] *)
Definition res_status (code : nat) : M unit :=
  fun c => (Ok tt, mkCtx (world c) (mkRes code (body (res c))) (trace c) (console c)).

(** [res.json(value)]: the value goes out as [JSON.stringify] prints it. *)
Definition res_json (v : json) : M unit :=
  fun c =>
    (Ok tt,
     mkCtx (world c) (mkRes (statusCode (res c)) (Some (stringify v)))
           (trace c) (console c)).

(** [res.send()] with no body. *)
Definition res_send : M unit :=
  fun c =>
    (Ok tt,
     mkCtx (world c) (mkRes (statusCode (res c)) (Some EmptyString))
           (trace c) (console c)).

(** [JSON.parse(text)], throwing on malformed text. *)
Definition JSON_parse (text : string) : M json :=
  match parse text with
  | Some v => mret v
  | None => throw SyntaxError
  end.

Section Collaborators.

(** Which operations of the collaborators fail while this request is
    served. *)
Variable faults : Op -> bool.

(** A call is recorded, then fails if its operation is faulty. *)
Definition call (e : Event) : M unit :=
  fun c =>
    let c' := mkCtx (world c) (res c) (trace c ++ [e]) (console c) in
    if faults (op_of e) then (Throw (error_of e), c') else (Ok tt, c').

(** **** Redis client: [get], [setEx] and [del] of the cache contract *)

Definition redis_get (k : string) : M (option string) :=
  call (RedisGet k);;
  w ← get_world;
  mret (cache_lookup (cache w) (clock w) k).

Definition redis_setEx (k : string) (ttl : Z) (v : string) : M unit :=
  call (RedisSetEx k ttl v);;
  w ← get_world;
  put_world (mkWorld (store w) (<[k := (v, clock w + ttl)]> (cache w)) (clock w)).

(** Deleting a key that is not there is not an error. *)
Definition redis_del (k : string) : M unit :=
  call (RedisDel k);;
  w ← get_world;
  put_world (mkWorld (store w) (delete k (cache w)) (clock w)).

(** **** Task model: [findAll], [findByPk], [create], [update] and
    [destroy] of the store contract *)

Definition put_store (s : Store) : M unit :=
  w ← get_world; put_world (mkWorld s (cache w) (clock w)).

Definition Task_findAll : M (list Task) :=
  call FindAll;;
  w ← get_world;
  mret (rows (store w)).

Definition find_row (k : Z) (ts : list Task) : option Task :=
  find (fun t => id t =? k) ts.

Definition Task_findByPk (k : Z) : M (option Task) :=
  call (FindByPk k);;
  w ← get_world;
  mret (find_row k (rows (store w))).

(** [Task.create({ description, completed })]: both fields must have the
    type of their column; the new row takes the next identifier. *)
Definition Task_create (d c : option json) : M Task :=
  call (Create d c);;
  match d, c with
  | Some (JStr d), Some (JBool c) =>
      w ← get_world;
      let t := mkTask (next_id (store w)) d c in
      put_store (mkStore (rows (store w) ++ [t]) (next_id (store w) + 1));;
      mret t
  | _, _ => throw DatabaseError
  end.

(** One field of [instance.update(values)]: [undefined] leaves the
    attribute as it is. *)
Definition set_description (d : option json) (t : Task) : option Task :=
  match d with
  | None => Some t
  | Some (JStr d) => Some (mkTask (id t) d (completed t))
  | Some _ => None
  end.

Definition set_completed (c : option json) (t : Task) : option Task :=
  match c with
  | None => Some t
  | Some (JBool c) => Some (mkTask (id t) (description t) c)
  | Some _ => None
  end.

Definition replace_row (t : Task) (ts : list Task) : list Task :=
  map (fun r => if id r =? id t then t else r) ts.

(** [task.update({ description, completed })] *)
Definition Task_update (t : Task) (d c : option json) : M Task :=
  call (Update (id t) d c);;
  match set_description d t ≫= set_completed c with
  | Some t' =>
      w ← get_world;
      put_store (mkStore (replace_row t' (rows (store w))) (next_id (store w)));;
      mret t'
  | None => throw DatabaseError
  end.

(** [Task.destroy({ where: { id } })]: the number of rows removed. *)
Definition Task_destroy (k : Z) : M nat :=
  call (Destroy k);;
  w ← get_world;
  let kept := List.filter (fun t => negb (id t =? k)) (rows (store w)) in
  put_store (mkStore kept (next_id (store w)));;
  mret (length (rows (store w)) - length kept)%nat.

End Collaborators.

End Backend.

(* ===================================================================== *)
(** ** The task routes *)
(* ===================================================================== *)

Module Server.
Import JSON Backend.

(** A request body as [express.json()] leaves it in [req.body]: a field
    that is missing reads as [undefined], here [None]. *)
Abbreviation Body := (gmap string json).

(** ToBoolean. *)
Definition truthy (v : option json) : bool :=
  match v with
  | None => false
  | Some JNull => false
  | Some (JBool b) => b
  | Some (JNum n) => negb (n =? 0)
  | Some (JStr s) => negb (String.eqb s EmptyString)
  | Some (JArr _) | Some (JObj _) => true
  end.

(** The one key the service keeps in Redis. *)
Definition snapshot_key : string := "tasks:all".

Definition no_faults : Op -> bool := fun _ => false.

Definition error_body (message : string) : json :=
  JObj [("error", JStr message)].

Section Routes.

Variable faults : Op -> bool.

(** [app.get("/tasks", ...)].  [redisClient.get] answers a string or
    [null]; the test [if (cachedData)] takes the hit branch for a string
    that is not empty. *)
Definition get_tasks : M unit :=
  try_catch
    (let cacheKey := "tasks:all" in
     let miss : M unit :=
       console_log "Redis: Cache MISS";;
       tasks ← Task_findAll faults;
       redis_setEx faults cacheKey 3600 (stringify (tasks_toJSON tasks));;
       res_json (tasks_toJSON tasks) in
     cachedData ← redis_get faults cacheKey;
     match cachedData with
     | Some text =>
         if truthy (Some (JStr text)) then
           console_log "Redis: Cache HIT";;
           v ← JSON_parse text;
           res_json v
         else miss
     | None => miss
     end)
    (fun error =>
       console_error error;;
       res_status 500;;
       res_json (error_body "Erro ao buscar tarefas")).

(** [app.post("/tasks", ...)] *)
Definition post_tasks (body : Body) : M unit :=
  let description := body !! "description" in
  if negb (truthy description) then
    res_status 400;; res_json (error_body "Descrição obrigatória")
  else
    task ← Task_create faults description (Some (JBool false));
    redis_del faults "tasks:all";;
    res_status 201;; res_json (Task_toJSON task).

(** [app.get("/tasks/:id", ...)] *)
Definition get_task (k : Z) : M unit :=
  task ← Task_findByPk faults k;
  match task with
  | None => res_status 404;; res_json (error_body "Tarefa não encontrada")
  | Some task => res_json (Task_toJSON task)
  end.

(** [app.put("/tasks/:id", ...)] *)
Definition put_task (k : Z) (body : Body) : M unit :=
  let description := body !! "description" in
  let completed := body !! "completed" in
  task ← Task_findByPk faults k;
  match task with
  | None => res_status 404;; res_json (error_body "Tarefa não encontrada")
  | Some task =>
      task ← Task_update faults task description completed;
      redis_del faults "tasks:all";;
      res_json (Task_toJSON task)
  end.

(** [app.delete("/tasks/:id", ...)] *)
Definition delete_task (k : Z) : M unit :=
  deleted ← Task_destroy faults k;
  if (deleted =? 0)%nat then
    res_status 404;; res_json (error_body "Tarefa não encontrada")
  else
    redis_del faults "tasks:all";;
    res_status 204;; res_send.

(** The five task routes.  The route parameter [:id] is taken as the key
    it denotes. *)
Inductive Request :=
  | ListAll
  | CreateTask (body : Body)
  | GetTask (k : Z)
  | UpdateTask (k : Z) (body : Body)
  | DeleteTask (k : Z).

Definition app (req : Request) : M unit :=
  match req with
  | ListAll => get_tasks
  | CreateTask body => post_tasks body
  | GetTask k => get_task k
  | UpdateTask k body => put_task k body
  | DeleteTask k => delete_task k
  end.

(** Serving one request from a world. *)
Definition serve (req : Request) (w : World) : Result unit * Ctx :=
  app req (start w).

End Routes.

(** *** The framework around a handler

    The router of Express 5 awaits the promise a handler returns and hands
    the reason of a rejection to error handling.  The application
    registers no error middleware, so the default handler answers: it
    keeps a status the handler had set in the range 400 to 599, answers
    500 otherwise, and sends an error page whose text is the library's
    (it depends on the environment), here [error_page].  When a response
    already went out, nothing more is written. *)
Section Framework.
Variable error_page : Error -> string.

Definition error_status (current : nat) : nat :=
  if (400 <=? current)%nat && (current <=? 599)%nat then current else 500%nat.

Definition default_error_handler (e : Error) : M unit :=
  fun c =>
    match body (res c) with
    | Some _ => (Ok tt, c)
    | None =>
        (Ok tt,
         mkCtx (world c)
               (mkRes (error_status (statusCode (res c))) (Some (error_page e)))
               (trace c) (console c))
    end.

Definition dispatch (faults : Op -> bool) (req : Request) : M unit :=
  try_catch (app faults req) default_error_handler.

(** What the caller of one request receives. *)
Definition answer (faults : Op -> bool) (req : Request) (w : World)
  : Result unit * Ctx :=
  dispatch faults req (start w).
End Framework.

(** The page of a production environment. *)
Definition production_error_page (e : Error) : string := "Internal Server Error".

Definition is_mutation (req : Request) : bool :=
  match req with
  | CreateTask _ | UpdateTask _ _ | DeleteTask _ => true
  | ListAll | GetTask _ => false
  end.

(** The identifier a request addresses. *)
Definition target (req : Request) : option Z :=
  match req with
  | GetTask k | UpdateTask k _ | DeleteTask k => Some k
  | ListAll | CreateTask _ => None
  end.

(** A response went out and it is not an error response. *)
Definition succeeded (out : Result unit * Ctx) : bool :=
  match out with
  | (Ok _, c) =>
      match body (res c) with
      | Some _ => (statusCode (res c) <? 400)%nat
      | None => false
      end
  | (Throw _, _) => false
  end.

(** Worlds and fault patterns used to exercise the routes. *)
Definition cold_world : World := mkWorld (mkStore [] 1) ∅ 0.

Definition sample_store : Store := mkStore [mkTask 5 "write report" false] 6.

Definition sample_snapshot : string := stringify (tasks_toJSON (rows sample_store)).

Definition warm_world : World :=
  mkWorld sample_store {[snapshot_key := (sample_snapshot, 3600)]} 0.

Definition eviction_fails (o : Op) : bool :=
  match o with OpRedisDel => true | _ => false end.

Definition lookup_fails (o : Op) : bool :=
  match o with OpRedisGet => true | _ => false end.

(** Some call on Redis made while serving the request failed. *)
Definition cache_failed (faults : Op -> bool) (calls : list Event) : bool :=
  existsb (fun e => negb (is_store_event e) && faults (op_of e)) calls.

End Server.

(* ===================================================================== *)
(** ** Histories of requests *)
(* ===================================================================== *)

Module History.
Import JSON Backend Server.

(** One request of a sequential history: the time that passed since the
    previous one, the operations that fail while it is served, and the
    request itself. *)
Record Step := mkStep {
  step_delay : Z;
  step_faults : Op -> bool;
  step_request : Request
}.

Definition step (w : World) (s : Step) : World :=
  world (snd (serve (step_faults s) (step_request s) (tick (step_delay s) w))).

Definition run (steps : list Step) (w : World) : World := fold_left step steps w.

(** The snapshot, when one is stored, is the serialisation of the rows the
    store holds now. *)
Definition coherent (w : World) : Prop :=
  forall text expires,
    cache w !! snapshot_key = Some (text, expires) ->
    text = stringify (tasks_toJSON (rows (store w))).

(** The snapshot, when one is stored, is a task list as the service
    serialises it. *)
Definition service_written (w : World) : Prop :=
  forall text expires,
    cache w !! snapshot_key = Some (text, expires) ->
    exists ts, text = stringify (tasks_toJSON ts).

(** The deletion of the snapshot key never fails along the history. *)
Definition evictions_succeed (steps : list Step) : Prop :=
  Forall (fun s => step_faults s OpRedisDel = false) steps.

(** Fault patterns and a history used to exercise the routes. *)
Definition redis_down (o : Op) : bool :=
  match o with
  | OpRedisGet | OpRedisSetEx | OpRedisDel => true
  | _ => false
  end.

Definition create_fails (o : Op) : bool :=
  match o with OpCreate => true | _ => false end.

Definition buy_milk : Body := {["description" := JStr "buy milk"]}.

Definition report : Task := mkTask 5 "write report" false.

Definition warming_history : list Step :=
  [mkStep 0 no_faults (CreateTask buy_milk);
   mkStep 5 create_fails (CreateTask buy_milk);
   mkStep 5 no_faults ListAll;
   mkStep 60 redis_down (DeleteTask 1)].

Definition sample_history : list Step :=
  [mkStep 0 no_faults ListAll;
   mkStep 5 no_faults (CreateTask buy_milk);
   mkStep 5 lookup_fails ListAll;
   mkStep 5 no_faults ListAll;
   mkStep 60 create_fails (CreateTask buy_milk);
   mkStep 60 no_faults (UpdateTask 1 {["completed" := JBool true]});
   mkStep 4000 no_faults ListAll;
   mkStep 1 no_faults (DeleteTask 1)].

End History.

(* ===================================================================== *)
(** ** Authentication, accounts and the storage client *)
(* ===================================================================== *)

Module Accounts.
Import JSON.

(** The [User] model is not among the sources; the record has the
    attributes the routes read and write. *)
Record User := mkUser {
  id : Z;
  name : json;
  email : json;
  password_hash : string;
  avatar_url : json
}.

(** [req.file] as multer leaves it. *)
Record File := mkFile { buffer : string; mimetype : string }.

(** What [createClient(url, key)] was given. *)
Record Client := mkClient { client_url : string; client_key : string }.

Inductive Failure :=
  | DatabaseFailure
  | BcryptFailure
  | JwtFailure
  | StorageFailure (message : string)
  | TypeFailure.

(** A call on a library either returns or throws. *)
Inductive Outcome (A : Type) :=
  | Returns (a : A)
  | Fails (f : Failure).
Arguments Returns {A} a.
Arguments Fails {A} f.

(** [process.env], the clock, and the behaviour of the libraries the
    routes call: nothing is assumed about what they answer. *)
Record Env := mkEnv {
  JWT_SECRET : option string;
  SUPABASE_URL : option string;
  SUPABASE_KEY : option string;
  SUPABASE_BUCKET : option string;
  Date_now : Z;
  (* jwt.verify(token, secret): the decoded payload, [None] on [err] *)
  jwt_verify : string -> option string -> option json;
  (* jwt.sign(payload, secret, { expiresIn }) *)
  jwt_sign : json -> option string -> string -> Outcome string;
  bcrypt_compare : option json -> string -> Outcome bool;
  bcrypt_hash : option json -> Z -> Outcome string;
  User_findOne : option json -> Outcome (option User);
  User_findByPk : option json -> Outcome (option User);
  User_create : option json -> option json -> string -> Outcome User;
  User_save : User -> Outcome unit;
  (* storage.from(bucket).upload(fileName, buffer, { contentType }):
     the [error] of the answer, [None] when it is [null] *)
  storage_upload : Client -> string -> string -> File -> Outcome (option string);
  (* storage.from(bucket).getPublicUrl(fileName): [data.publicUrl] *)
  storage_getPublicUrl : Client -> string -> string -> string
}.

(** The calls a route makes, with their arguments. *)
Inductive Call :=
  | Verify (token : string)
  | Sign (payload : json)
  | Compare (password : option json) (hash : string)
  | Hash (password : option json) (rounds : Z)
  | FindOne (email : option json)
  | FindByPk (k : option json)
  | CreateUser (name email : option json) (hash : string)
  | Save (u : User)
  | Upload (bucket fileName : string) (f : File)
  | GetPublicUrl (bucket fileName : string).

(** The request as a handler sees it; [user] is what a middleware stored
    in [req.user]. *)
Record Req := mkReq {
  headers_authorization : option string;
  body : gmap string json;
  file : option File;
  user : option json
}.

Record Acc := mkAcc {
  res : Backend.Res;
  calls : list Call;
  console : list string
}.

Definition start : Acc := mkAcc (Backend.mkRes 200 None) [] [].

Definition M (A : Type) : Type := Acc -> Outcome A * Acc.

#[global] Instance M_ret : MRet M := fun A (a : A) c => (Returns a, c).

#[global] Instance M_bind : MBind M := fun A B (k : A -> M B) (m : M A) c =>
  match m c with
  | (Returns a, c') => k a c'
  | (Fails f, c') => (Fails f, c')
  end.

Definition throw {A} (f : Failure) : M A := fun c => (Fails f, c).

Definition try_catch {A} (body : M A) (handler : Failure -> M A) : M A :=
  fun c =>
    match body c with
    | (Returns a, c') => (Returns a, c')
    | (Fails f, c') => handler f c'
    end.

(** A call is recorded, then returns or throws as the library does. *)
Definition perform {A} (c : Call) (o : Outcome A) : M A :=
  fun a => (o, mkAcc (res a) (calls a ++ [c]) (console a)).

Definition console_error (f : Failure) : M unit :=
  fun a =>
    (Returns tt,
     mkAcc (res a) (calls a)
           (console a ++ [match f with
                          | StorageFailure message => message
                          | _ => "Error"
                          end])).

Definition res_status (code : nat) : M unit :=
  fun a =>
    (Returns tt,
     mkAcc (Backend.mkRes code (Backend.body (res a))) (calls a) (console a)).

Definition res_json (v : json) : M unit :=
  fun a =>
    (Returns tt,
     mkAcc (Backend.mkRes (Backend.statusCode (res a)) (Some (stringify v)))
           (calls a) (console a)).

(** [text.split(sep)]: the fields between the separators; the empty
    text has one empty field. *)
Fixpoint split (sep : ascii) (text : string) : list string :=
  match text with
  | EmptyString => [EmptyString]
  | String c rest =>
      if Ascii.eqb c sep then EmptyString :: split sep rest
      else
        match split sep rest with
        | field :: fields => String c field :: fields
        | [] => [str1 c]
        end
  end.

(** [text.startsWith(prefix)] *)
Fixpoint startsWith (prefix text : string) : bool :=
  match prefix, text with
  | EmptyString, _ => true
  | String a prefix', String b text' => Ascii.eqb a b && startsWith prefix' text'
  | String _ _, EmptyString => false
  end.

(** ToBoolean of a value that is a string or [undefined]. *)
Definition truthy_text (o : option string) : bool :=
  match o with
  | Some text => negb (String.eqb text EmptyString)
  | None => false
  end.

(** [value.key] of what may be an object: a [TypeError] on [undefined]
    and [null], [undefined] where there is no such property. *)
Definition get_field (k : string) (value : option json) : Outcome (option json) :=
  match value with
  | None | Some JNull => Fails TypeFailure
  | Some (JObj members) =>
      Returns (snd <$> find (fun kv => String.eqb (fst kv) k) members)
  | Some _ => Returns None
  end.

Definition lift {A} (o : Outcome A) : M A := fun a => (o, a).

Section Handlers.

Variable env : Env.

(** [export const supabase = (supabaseUrl && supabaseUrl.startsWith('http')
    && supabaseKey) ? createClient(supabaseUrl, supabaseKey) : null] *)
Definition supabase : option Client :=
  match SUPABASE_URL env, SUPABASE_KEY env with
  | Some supabaseUrl, Some supabaseKey =>
      if truthy_text (Some supabaseUrl) && startsWith "http" supabaseUrl
         && truthy_text (Some supabaseKey)
      then Some (mkClient supabaseUrl supabaseKey)
      else None
  | _, _ => None
  end.

(** [const authenticateToken = (req, res, next) => ...] *)
Definition authenticateToken (req : Req) (next : Req -> M unit) : M unit :=
  let authHeader := headers_authorization req in
  let token :=
    match authHeader with
    | Some header =>
        if truthy_text (Some header) then split " " header !! 1%nat
        else Some header
    | None => None
    end in
  match token with
  | Some token =>
      if truthy_text (Some token) then
        decoded ← perform (Verify token) (Returns (jwt_verify env token (JWT_SECRET env)));
        match decoded with
        | None => res_status 403;; res_json (Server.error_body "Token inválido")
        | Some payload =>
            next (mkReq (headers_authorization req) (body req) (file req)
                        (Some payload))
        end
      else res_status 401;; res_json (Server.error_body "Token não fornecido")
  | None => res_status 401;; res_json (Server.error_body "Token não fornecido")
  end.

(** [app.post("/signin", ...)] *)
Definition signin (req : Req) : M unit :=
  try_catch
    (let email := body req !! "email" in
     let password := body req !! "password" in
     user ← perform (FindOne email) (User_findOne env email);
     match user with
     | None =>
         res_status 400;; res_json (Server.error_body "Usuário não encontrado")
     | Some user =>
         validPassword ← perform (Compare password (password_hash user))
                            (bcrypt_compare env password (password_hash user));
         if negb validPassword then
           res_status 400;; res_json (Server.error_body "Senha incorreta")
         else
           let payload := JObj [("id", JNum (id user)); ("email", Accounts.email user)] in
           token ← perform (Sign payload)
                     (jwt_sign env payload (JWT_SECRET env) "24h");
           res_json
             (JObj [("token", JStr token);
                    ("user", JObj [("id", JNum (id user));
                                   ("name", name user);
                                   ("avatar", avatar_url user)])])
     end)
    (fun error =>
       console_error error;;
       res_status 500;; res_json (Server.error_body "Erro interno no login")).

(** [app.post("/signup", ...)] *)
Definition signup (req : Req) : M unit :=
  try_catch
    (let name := body req !! "name" in
     let email := body req !! "email" in
     let password := body req !! "password" in
     hashedPassword ← perform (Hash password 10) (bcrypt_hash env password 10);
     user ← perform (CreateUser name email hashedPassword)
              (User_create env name email hashedPassword);
     res_status 201;;
     res_json (JObj [("id", JNum (id user)); ("email", Accounts.email user)]))
    (fun error =>
       res_status 400;;
       res_json (Server.error_body "Erro ao criar usuário. Email já existe?")).

(** [process.env.SUPABASE_BUCKET || 'avatars'] *)
Definition bucket : string :=
  match SUPABASE_BUCKET env with
  | Some b => if truthy_text (Some b) then b else "avatars"
  | None => "avatars"
  end.

(** The handler of [app.put("/profile", ...)]. *)
Definition put_profile (req : Req) : M unit :=
  try_catch
    (k ← lift (get_field "id" (Accounts.user req));
     user ← perform (FindByPk k) (User_findByPk env k);
     match user with
     | None =>
         res_status 404;; res_json (Server.error_body "Usuário não encontrado")
     | Some user =>
         user ←
           match file req, supabase with
           | Some f, Some client =>
               let fileName :=
                 number_to_string (id user) +:+ "-"
                 +:+ number_to_string (Date_now env) +:+ ".png" in
               error ← perform (Upload bucket fileName f)
                         (storage_upload env client bucket fileName f);
               match error with
               | Some message => throw (StorageFailure message)
               | None =>
                   publicUrl ← perform (GetPublicUrl bucket fileName)
                                 (Returns (storage_getPublicUrl env client bucket fileName));
                   mret (mkUser (id user) (name user) (Accounts.email user)
                                (password_hash user) (JStr publicUrl))
               end
           | _, _ => mret user
           end;
         let user :=
           match body req !! "name" with
           | Some n =>
               if Server.truthy (Some n)
               then mkUser (id user) n (Accounts.email user) (password_hash user)
                           (avatar_url user)
               else user
           | None => user
           end in
         perform (Save user) (User_save env user);;
         res_json (JObj [("id", JNum (id user)); ("name", name user);
                         ("avatar", avatar_url user)])
     end)
    (fun error =>
       console_error error;;
       res_status 500;; res_json (Server.error_body "Erro ao atualizar perfil")).

(** [upload.single('avatar')]: multer's parsing is taken as done, [file]
    and [body] hold what it extracts. *)
Definition upload_single (req : Req) (next : Req -> M unit) : M unit := next req.

(** [app.put("/profile", authenticateToken, upload.single('avatar'), ...)] *)
Definition put_profile_route (req : Req) : M unit :=
  authenticateToken req (fun req => upload_single req put_profile).

End Handlers.

(** A text without a space, and a text that is empty or begins with a
    space: the shapes of the fields and of what follows a field. *)
Fixpoint no_space (text : string) : bool :=
  match text with
  | EmptyString => true
  | String c rest => negb (Ascii.eqb c " ") && no_space rest
  end.

Definition ends_field (text : string) : bool :=
  match text with
  | EmptyString => true
  | String c _ => Ascii.eqb c " "
  end.

(** A call on the user table or on the storage bucket. *)
Definition touches_data (c : Call) : bool :=
  match c with
  | FindOne _ | FindByPk _ | CreateUser _ _ _ | Save _
  | Upload _ _ _ | GetPublicUrl _ _ => true
  | Verify _ | Sign _ | Compare _ _ | Hash _ _ => false
  end.

Definition is_sign (c : Call) : bool :=
  match c with Sign _ => true | _ => false end.

Definition is_upload (c : Call) : bool :=
  match c with Upload _ _ _ => true | _ => false end.

Definition is_save (c : Call) : bool :=
  match c with Save _ => true | _ => false end.

Definition answered (out : Outcome unit * Acc) (codes : list nat) : Prop :=
  fst out = Returns tt
  /\ Backend.body (res (snd out)) <> None
  /\ In (Backend.statusCode (res (snd out))) codes.

(** A sample environment: tokens are ["t:" ++ email], hashes
    ["h:" ++ password], one user. *)
Definition alice : User :=
  mkUser 7 (JStr "Alice") (JStr "alice@example.org") "h:secret" JNull.

Definition sample_env : Env :=
  mkEnv (Some "s3cr3t") (Some "https://project.supabase.co") (Some "key") None 1700000000000
    (fun token _ =>
       if String.eqb token "t:alice"
       then Some (JObj [("id", JNum 7); ("email", JStr "alice@example.org")])
       else None)
    (fun _ _ _ => Returns "t:alice")
    (fun password hash =>
       match password with
       | Some (JStr p) => Returns (String.eqb ("h:" +:+ p) hash)
       | _ => Fails BcryptFailure
       end)
    (fun password _ =>
       match password with
       | Some (JStr p) => Returns ("h:" +:+ p)
       | _ => Fails BcryptFailure
       end)
    (fun email =>
       match email with
       | Some (JStr "alice@example.org") => Returns (Some alice)
       | Some _ => Returns None
       | None => Fails DatabaseFailure
       end)
    (fun k =>
       match k with
       | Some (JNum 7) => Returns (Some alice)
       | _ => Returns None
       end)
    (fun name email hash =>
       match name, email with
       | Some n, Some e => Returns (mkUser 8 n e hash JNull)
       | _, _ => Fails DatabaseFailure
       end)
    (fun _ => Returns tt)
    (fun _ _ _ _ => Returns None)
    (fun client bucket fileName =>
       client_url client +:+ "/storage/v1/object/public/" +:+ bucket +:+ "/" +:+ fileName).

(** The sample environment with a storage address that does not begin
    with [http], and with a bucket that refuses uploads. *)
Definition unconfigured_env : Env :=
  mkEnv (JWT_SECRET sample_env) (Some "localhost:54321") (SUPABASE_KEY sample_env)
    (SUPABASE_BUCKET sample_env) (Date_now sample_env) (jwt_verify sample_env)
    (jwt_sign sample_env) (bcrypt_compare sample_env) (bcrypt_hash sample_env)
    (User_findOne sample_env) (User_findByPk sample_env) (User_create sample_env)
    (User_save sample_env) (storage_upload sample_env)
    (storage_getPublicUrl sample_env).

Definition refusing_env : Env :=
  mkEnv (JWT_SECRET sample_env) (SUPABASE_URL sample_env) (SUPABASE_KEY sample_env)
    (SUPABASE_BUCKET sample_env) (Date_now sample_env) (jwt_verify sample_env)
    (jwt_sign sample_env) (bcrypt_compare sample_env) (bcrypt_hash sample_env)
    (User_findOne sample_env) (User_findByPk sample_env) (User_create sample_env)
    (User_save sample_env)
    (fun _ _ _ _ => Returns (Some "Bucket not found"))
    (storage_getPublicUrl sample_env).

Definition alice_payload : json :=
  JObj [("id", JNum 7); ("email", JStr "alice@example.org")].

Definition picture : File := mkFile "GIF89a" "image/gif".

(** Requests as the profile handler receives them once the token of the
    sample user has been verified. *)
Definition profile_req (b : gmap string json) (f : option File) : Req :=
  mkReq (Some "Bearer t:alice") b f (Some alice_payload).

Definition signin_req (e p : string) : Req :=
  mkReq None {["email" := JStr e; "password" := JStr p]} None None.

End Accounts.

(* ===================================================================== *)
(** ** Facts about the JSON layer *)
(* ===================================================================== *)

Module JSONFacts.
Import JSON.

Lemma append_assoc (a b c : string) : (a +:+ b) +:+ c = a +:+ (b +:+ c).
Proof. induction a as [|x a IH]; simpl; [reflexivity | now rewrite IH]. Qed.

Lemma append_empty_r (a : string) : a +:+ EmptyString = a.
Proof. induction a as [|x a IH]; simpl; [reflexivity | now rewrite IH]. Qed.

Lemma length_append (a b : string) :
  String.length (a +:+ b) = (String.length a + String.length b)%nat.
Proof. induction a as [|x a IH]; simpl; [reflexivity | now rewrite IH]. Qed.

Lemma length_String (c : ascii) (a : string) :
  String.length (String c a) = S (String.length a).
Proof. reflexivity. Qed.

(** *** Numbers *)

Lemma delimited_scan (s : string) : delimited s = true -> scan_digits s = (Nil, s).
Proof.
  destruct s as [|c r]; [reflexivity|]. simpl. intros H.
  destruct (scan_digits r) as [d r'].
  destruct c as [[] [] [] [] [] [] [] []]; try discriminate H; reflexivity.
Qed.

Lemma delimited_fraction (s : string) : delimited s = true -> starts_fraction s = false.
Proof.
  destruct s as [|c r]; [reflexivity|]. simpl.
  destruct c as [[] [] [] [] [] [] [] []]; intros H; try discriminate H; reflexivity.
Qed.

Lemma scan_digits_print (d : uint) (rest : string) :
  delimited rest = true ->
  scan_digits (NilEmpty.string_of_uint d +:+ rest) = (d, rest).
Proof.
  intros H. induction d; simpl; try rewrite IHd; try reflexivity.
  now apply delimited_scan.
Qed.

Lemma uint_beq_refl (d : uint) : uint_beq d d = true.
Proof. induction d; simpl; auto. Qed.

Lemma canonical_to_uint (n : N) : canonical_digits (N.to_uint n) = true.
Proof.
  unfold canonical_digits.
  rewrite <- (DecimalN.Unsigned.to_of (N.to_uint n)), DecimalN.Unsigned.of_to.
  apply uint_beq_refl.
Qed.

Ltac by_cases_on_char c :=
  destruct c as [[] [] [] [] [] [] [] []];
  try discriminate; repeat split; reflexivity.

Lemma is_digit_not_minus (c : ascii) : is_digit c = true -> Ascii.eqb c "-" = false.
Proof. by_cases_on_char c. Qed.

Lemma number_start_dispatch (c : ascii) :
  number_start c = true ->
  is_ws c = false /\ Ascii.eqb c "n" = false /\ Ascii.eqb c "t" = false
  /\ Ascii.eqb c "f" = false /\ Ascii.eqb c dquote = false
  /\ Ascii.eqb c "[" = false /\ Ascii.eqb c "{" = false.
Proof. by_cases_on_char c. Qed.

Lemma value_start_not_closing (c : ascii) :
  value_start c = true ->
  is_ws c = false /\ Ascii.eqb c "]" = false /\ Ascii.eqb c "}" = false.
Proof. by_cases_on_char c. Qed.

Lemma print_uint_head (d : uint) :
  d <> Nil ->
  exists c s, NilEmpty.string_of_uint d = String c s /\ is_digit c = true.
Proof. destruct d; [congruence | ..]; intros _; simpl; eauto. Qed.

Lemma to_uint_nonnil (n : N) : N.to_uint n <> Nil.
Proof.
  intros E. pose proof (canonical_to_uint n) as H.
  rewrite E in H. discriminate H.
Qed.

Lemma number_to_string_head (n : Z) :
  exists c s, number_to_string n = String c s /\ number_start c = true.
Proof.
  unfold number_to_string. destruct (n <? 0).
  - eauto.
  - destruct (print_uint_head _ (to_uint_nonnil (Z.abs_N n))) as (c & s & E & Hc).
    exists c, s. split; [exact E|]. unfold number_start. rewrite Hc.
    apply orb_true_r.
Qed.

Lemma parse_number_print (n : Z) (rest : string) :
  delimited rest = true ->
  parse_number (number_to_string n +:+ rest) = Some (n, rest).
Proof.
  intros H. unfold number_to_string, parse_number.
  destruct (Z.ltb_spec n 0) as [Hn|Hn].
  - simpl. rewrite scan_digits_print by assumption.
    rewrite canonical_to_uint, delimited_fraction by assumption. simpl.
    rewrite DecimalN.Unsigned.of_to. do 2 f_equal. lia.
  - destruct (print_uint_head _ (to_uint_nonnil (Z.abs_N n))) as (c & s & E & Hc).
    rewrite E. simpl. rewrite (is_digit_not_minus c Hc).
    change (String c (s +:+ rest)) with (String c s +:+ rest). rewrite <- E.
    rewrite scan_digits_print by assumption.
    rewrite canonical_to_uint, delimited_fraction by assumption. simpl.
    rewrite DecimalN.Unsigned.of_to. do 2 f_equal. lia.
Qed.

(** *** Strings *)

Lemma parse_chars_quote_char (c : ascii) (t : string) :
  parse_chars (quote_char c +:+ t)
  = '(str, rest) ← parse_chars t; Some (String c str, rest).
Proof.
  destruct c as [[] [] [] [] [] [] [] []]; reflexivity.
Qed.

Lemma parse_chars_quote_body (s rest : string) :
  parse_chars (quote_body s +:+ String dquote rest) = Some (s, rest).
Proof.
  induction s as [|c s IH]; [reflexivity|].
  simpl quote_body. rewrite append_assoc, parse_chars_quote_char, IH.
  reflexivity.
Qed.

(** *** Values *)

Lemma stringify_head (v : json) :
  exists c s, stringify v = String c s /\ value_start c = true.
Proof.
  destruct v as [|[]|n|s|l|m]; simpl; eauto.
  destruct (number_to_string_head n) as (c & s & E & Hc).
  exists c, s. split; [exact E|]. unfold value_start. now rewrite Hc.
Qed.

Lemma stringify_nonempty (v : json) : stringify v <> EmptyString.
Proof. destruct (stringify_head v) as (c & s & E & _). congruence. Qed.

Lemma join_cons2 (p q : string) (ps : list string) :
  join (p :: q :: ps) = p +:+ String "," (join (q :: ps)).
Proof. reflexivity. Qed.

Lemma elements_head (x : json) (l : list json) (tail : string) :
  exists c s, join (map stringify (x :: l)) +:+ tail = String c s
              /\ value_start c = true.
Proof.
  destruct (stringify_head x) as (c & s & E & Hc).
  destruct l as [|y l]; simpl map.
  - simpl join. rewrite E. simpl. eauto.
  - rewrite join_cons2, E. simpl. eauto.
Qed.

Lemma member_text_app (kv : string * json) (tail : string) :
  member_text kv +:+ tail
  = String dquote
      (quote_body (fst kv) +:+ String dquote (String ":" (stringify (snd kv) +:+ tail))).
Proof.
  unfold member_text, quote, str1. simpl.
  now rewrite !append_assoc.
Qed.

Lemma members_head (kv : string * json) (m : list (string * json)) (tail : string) :
  exists s, join (map member_text (kv :: m)) +:+ tail = String dquote s.
Proof.
  destruct m as [|kv' m]; simpl map.
  - simpl join. rewrite member_text_app. eauto.
  - rewrite join_cons2, append_assoc, member_text_app. eauto.
Qed.

Lemma parse_elements_S (fuel : nat) (s : string) :
  parse_elements (S fuel) s
  = '(v, r) ← parse_value fuel s;
    match skip_ws r with
    | EmptyString => None
    | String c r' =>
        if Ascii.eqb c "," then
          '(vs, r'') ← parse_elements fuel r'; Some (v :: vs, r'')
        else if Ascii.eqb c "]" then Some ([v], r')
        else None
    end.
Proof. reflexivity. Qed.

Lemma parse_members_quoted (fuel : nat) (s : string) :
  parse_members (S fuel) (String dquote s)
  = '(k, r1) ← parse_chars s;
    match skip_ws r1 with
    | EmptyString => None
    | String c1 r2 =>
        if Ascii.eqb c1 ":" then
          '(v, r3) ← parse_value fuel r2;
          match skip_ws r3 with
          | EmptyString => None
          | String c3 r4 =>
              if Ascii.eqb c3 "," then
                '(ms, r5) ← parse_members fuel r4;
                Some ((k, v) :: ms, r5)
              else if Ascii.eqb c3 "}" then Some ([(k, v)], r4)
              else None
          end
        else None
    end.
Proof. reflexivity. Qed.

Lemma parse_elements_print (l : list json) :
  Forall parses l -> l <> [] ->
  forall fuel rest,
    (String.length (join (map stringify l)) + 1 < fuel)%nat ->
    parse_elements fuel (join (map stringify l) +:+ String "]" rest)
    = Some (map normalize l, rest).
Proof.
  induction 1 as [|x l Hx Hl IH]; [congruence|]. intros _ fuel rest Hf.
  destruct fuel as [|fuel]; [lia|]. rewrite parse_elements_S.
  destruct l as [|y l'].
  - simpl join in *. rewrite Hx; [| reflexivity | lia]. reflexivity.
  - simpl map in *. rewrite join_cons2 in *. rewrite append_assoc.
    rewrite length_append, length_String in Hf.
    rewrite Hx; [| reflexivity | lia]. simpl.
    rewrite IH; [reflexivity | congruence | lia].
Qed.

Lemma parse_members_print (m : list (string * json)) :
  Forall (fun kv => parses (snd kv)) m -> m <> [] ->
  forall fuel rest,
    (String.length (join (map member_text m)) + 1 < fuel)%nat ->
    parse_members fuel (join (map member_text m) +:+ String "}" rest)
    = Some (map (fun kv => (fst kv, normalize (snd kv))) m, rest).
Proof.
  induction 1 as [|kv m Hkv Hm IH]; [congruence|]. intros _ fuel rest Hf.
  destruct fuel as [|fuel]; [lia|].
  destruct m as [|kv' m'].
  - simpl join in *. rewrite member_text_app, parse_members_quoted.
    rewrite parse_chars_quote_body. simpl.
    unfold member_text in Hf. rewrite length_append, length_String in Hf.
    rewrite Hkv; [| reflexivity | lia]. reflexivity.
  - simpl map in *. rewrite join_cons2 in *. rewrite append_assoc.
    rewrite member_text_app, parse_members_quoted.
    rewrite parse_chars_quote_body. simpl.
    rewrite length_append in Hf. unfold member_text at 1 in Hf.
    rewrite length_append, !length_String in Hf.
    rewrite Hkv; [| reflexivity | lia]. simpl.
    rewrite IH; [reflexivity | congruence | lia].
Qed.

Lemma stringify_arr (l : list json) (rest : string) :
  stringify (JArr l) +:+ rest
  = String "[" (join (map stringify l) +:+ String "]" rest).
Proof. simpl. now rewrite append_assoc. Qed.

Lemma stringify_obj (m : list (string * json)) (rest : string) :
  stringify (JObj m) +:+ rest
  = String "{" (join (map member_text m) +:+ String "}" rest).
Proof. simpl. now rewrite append_assoc. Qed.

Lemma length_stringify_arr (l : list json) :
  String.length (stringify (JArr l))
  = (String.length (join (map stringify l)) + 2)%nat.
Proof.
  change (stringify (JArr l)) with (String "[" (join (map stringify l) +:+ "]")).
  rewrite length_String, length_append. change (String.length "]") with 1%nat. lia.
Qed.

Lemma length_stringify_obj (m : list (string * json)) :
  String.length (stringify (JObj m))
  = (String.length (join (map member_text m)) + 2)%nat.
Proof.
  change (stringify (JObj m)) with (String "{" (join (map member_text m) +:+ "}")).
  rewrite length_String, length_append. change (String.length "}") with 1%nat. lia.
Qed.

Lemma parse_value_arr (fuel : nat) (r : string) :
  parse_value (S fuel) (String "[" r)
  = match skip_ws r with
    | EmptyString => None
    | String c' r' =>
        if Ascii.eqb c' "]" then Some (JArr [], r')
        else '(vs, r'') ← parse_elements fuel r; Some (JArr vs, r'')
    end.
Proof. reflexivity. Qed.

Lemma parse_value_obj (fuel : nat) (r : string) :
  parse_value (S fuel) (String "{" r)
  = match skip_ws r with
    | EmptyString => None
    | String c' r' =>
        if Ascii.eqb c' "}" then Some (JObj [], r')
        else
          '(ms, r'') ← parse_members fuel r;
          Some (JObj (obj_of_entries ms), r'')
    end.
Proof. reflexivity. Qed.

Lemma parse_value_print (v : json) : parses v.
Proof.
  induction v as [|b|n|s|l IH|m IH] using json_ind;
    intros fuel rest Hrest Hf; (destruct fuel as [|fuel]; [lia|]).
  - reflexivity.
  - destruct b; reflexivity.
  - simpl stringify in *.
    destruct (number_to_string_head n) as (c & s & E & Hc).
    destruct (number_start_dispatch c Hc) as (W & N1 & N2 & N3 & N4 & N5 & N6).
    assert (Hp := parse_number_print n rest Hrest). rewrite E in *.
    simpl. simpl in Hp. rewrite W, N1, N2, N3, N4, N5, N6, Hp. reflexivity.
  - simpl stringify. unfold quote, str1. simpl.
    rewrite append_assoc. simpl. now rewrite parse_chars_quote_body.
  - destruct l as [|x l]; [reflexivity|].
    rewrite length_stringify_arr in Hf.
    rewrite stringify_arr, parse_value_arr.
    destruct (elements_head x l (String "]" rest)) as (c & s & E & Hc).
    destruct (value_start_not_closing c Hc) as (W & N1 & _).
    pose proof (parse_elements_print (x :: l) IH ltac:(congruence) fuel rest
                  ltac:(lia)) as Hp.
    rewrite Hp. rewrite E. simpl skip_ws. rewrite W, N1. reflexivity.
  - destruct m as [|kv m]; [reflexivity|].
    rewrite length_stringify_obj in Hf.
    rewrite stringify_obj, parse_value_obj.
    pose proof (parse_members_print (kv :: m) IH ltac:(congruence) fuel rest
                  ltac:(lia)) as Hp.
    destruct (members_head kv m (String "}" rest)) as (s & E).
    rewrite Hp, E. reflexivity.
Qed.

(** Reading back what [stringify] printed gives the value as an object
    store holds it. *)
Lemma parse_stringify (v : json) : parse (stringify v) = Some (normalize v).
Proof.
  unfold parse.
  rewrite <- (append_empty_r (stringify v)) at 2.
  rewrite parse_value_print; [reflexivity | reflexivity | lia].
Qed.

End JSONFacts.

(* ===================================================================== *)
(** ** Properties of the task routes *)
(* ===================================================================== *)

Module ServerFacts.
Import JSON Backend Server History JSONFacts.

Ltac run :=
  unfold serve, app, get_tasks, post_tasks, get_task, put_task, delete_task,
    redis_get, redis_setEx, redis_del, Task_findAll, Task_findByPk,
    Task_create, Task_update, Task_destroy, put_store, get_world, put_world,
    console_error, console_log, res_status, res_json, res_send, JSON_parse, try_catch, throw,
    call, start, mbind, M_bind, mret, M_ret;
  simpl.

(** Case analysis on every test a handler makes. *)
Ltac split_run :=
  repeat (simpl;
    match goal with
    | |- context [if ?b then _ else _] => destruct b eqn:?
    | |- context [match ?x with Some _ => _ | None => _ end] => destruct x eqn:?
    | |- context [match ?x with JNull => _ | _ => _ end] => destruct x eqn:?
    end);
  simpl.

Lemma filter_absent (k : Z) (ts : list Task) :
  find_row k ts = None -> List.filter (fun t => negb (id t =? k)) ts = ts.
Proof.
  unfold find_row. induction ts as [|t ts IH]; [reflexivity|]. simpl.
  destruct (id t =? k); simpl; [discriminate|].
  intros H. now rewrite IH.
Qed.

Lemma store_eta (s : Store) : mkStore (rows s) (next_id s) = s.
Proof. now destruct s. Qed.

Lemma world_eta (w : World) : mkWorld (store w) (cache w) (clock w) = w.
Proof. now destruct w. Qed.

Lemma normalize_task (t : Task) : normalize (Task_toJSON t) = Task_toJSON t.
Proof. reflexivity. Qed.

Lemma normalize_tasks (ts : list Task) : normalize (tasks_toJSON ts) = tasks_toJSON ts.
Proof.
  unfold tasks_toJSON. simpl. f_equal. rewrite map_map.
  apply map_ext. intros t. apply normalize_task.
Qed.

(** C4. A create request whose description is missing or empty is answered
    400; nothing is called on the store or on Redis and the world is
    unchanged. *)
Theorem create_rejects_empty faults w (body : Body) :
  body !! "description" = None \/ body !! "description" = Some (JStr EmptyString) ->
  serve faults (CreateTask body) w
  = (Ok tt,
     mkCtx w (mkRes 400 (Some (stringify (error_body "Descrição obrigatória"))))
           [] []).
Proof.
  intros [H|H]; run; rewrite H; reflexivity.
Qed.

Lemma create_rejects_empty_witness :
  (∅ : Body) !! "description" = None
  /\ serve no_faults (CreateTask ∅) (mkWorld (mkStore [] 1) ∅ 0)
     = (Ok tt,
        mkCtx (mkWorld (mkStore [] 1) ∅ 0)
              (mkRes 400 (Some (stringify (error_body "Descrição obrigatória"))))
              [] []).
Proof.
  split; [reflexivity|].
  apply (create_rejects_empty no_faults (mkWorld (mkStore [] 1) ∅ 0) ∅).
  left. reflexivity.
Defined.

(** C8. A create request with a non-empty description, served while the
    store and Redis answer, appends a task with [completed = false] under
    the next identifier, deletes the snapshot key and answers 201 with the
    new record, identifier included. *)
Theorem create_inserts faults w (body : Body) (d : string) :
  body !! "description" = Some (JStr d) ->
  d <> EmptyString ->
  faults OpCreate = false ->
  faults OpRedisDel = false ->
  let t := mkTask (next_id (store w)) d false in
  serve faults (CreateTask body) w
  = (Ok tt,
     mkCtx (mkWorld (mkStore (rows (store w) ++ [t]) (next_id (store w) + 1))
                    (delete snapshot_key (cache w)) (clock w))
           (mkRes 201 (Some (stringify (Task_toJSON t))))
           [Create (Some (JStr d)) (Some (JBool false)); RedisDel snapshot_key]
           []).
Proof.
  intros H Hd Hc Hr t. run. rewrite H. simpl.
  apply String.eqb_neq in Hd. rewrite Hd. simpl.
  rewrite Hc. simpl. rewrite Hr. reflexivity.
Qed.

(** The two paths of the list handler, from any context. *)
Lemma get_tasks_miss faults (c : Ctx) :
  faults OpRedisGet = false ->
  faults OpFindAll = false ->
  faults OpRedisSetEx = false ->
  cache_lookup (cache (world c)) (clock (world c)) snapshot_key = None ->
  let w := world c in
  let snapshot := stringify (tasks_toJSON (rows (store w))) in
  get_tasks faults c
  = (Ok tt,
     mkCtx (mkWorld (store w)
                    (<[snapshot_key := (snapshot, clock w + 3600)]> (cache w))
                    (clock w))
           (mkRes (statusCode (res c)) (Some snapshot))
           (trace c ++ [RedisGet snapshot_key] ++ [FindAll]
                    ++ [RedisSetEx snapshot_key 3600 snapshot])
           (console c ++ ["Redis: Cache MISS"])).
Proof.
  intros Hg Hf Hs Hmiss w snapshot. subst w. run. rewrite Hg. simpl.
  unfold snapshot_key in Hmiss. rewrite Hmiss. simpl.
  rewrite Hf. simpl. rewrite Hs. simpl. now rewrite <- !app_assoc.
Qed.

(** What the miss path stores is read back as the same task list. *)
Lemma parse_snapshot (ts : list Task) :
  parse (stringify (tasks_toJSON ts)) = Some (tasks_toJSON ts).
Proof. now rewrite parse_stringify, normalize_tasks. Qed.

Lemma get_tasks_hit faults (c : Ctx) (ts : list Task) :
  faults OpRedisGet = false ->
  cache_lookup (cache (world c)) (clock (world c)) snapshot_key
  = Some (stringify (tasks_toJSON ts)) ->
  get_tasks faults c
  = (Ok tt,
     mkCtx (world c)
           (mkRes (statusCode (res c)) (Some (stringify (tasks_toJSON ts))))
           (trace c ++ [RedisGet snapshot_key])
           (console c ++ ["Redis: Cache HIT"])).
Proof.
  intros Hg Hhit.
  pose proof (stringify_nonempty (tasks_toJSON ts)) as Hne.
  pose proof (parse_snapshot ts) as Hparse.
  revert Hhit Hne Hparse. generalize (stringify (tasks_toJSON ts)) at 1 2 3.
  intros printed Hhit Hne Hparse. run. rewrite Hg. simpl.
  unfold snapshot_key in Hhit. rewrite Hhit. simpl.
  apply String.eqb_neq in Hne. rewrite Hne. simpl.
  rewrite Hparse. reflexivity.
Qed.

Lemma lookup_live (c : Cache) (now : Z) (k text : string) :
  cache_lookup c now k = Some text -> exists expires, c !! k = Some (text, expires).
Proof.
  unfold cache_lookup. destruct (c !! k) as [[v e]|]; [|discriminate].
  destruct (now <? e); [|discriminate]. intros [= ->]. eauto.
Qed.

(** Whatever is served and whatever fails, a stored snapshot stays one
    that the service wrote. *)
Lemma serve_service_written faults w (req : Request) :
  service_written w -> service_written (world (snd (serve faults req w))).
Proof.
  intros Hw text expires. unfold service_written, snapshot_key in *.
  destruct req; run; split_run;
    rewrite ?lookup_delete_eq, ?lookup_insert_eq;
    try discriminate; try (now apply Hw);
    try (intros [= <- _]; now eexists).
Qed.

Lemma run_service_written (steps : list Step) (w : World) :
  service_written w -> service_written (run steps w).
Proof.
  revert w. induction steps as [|s steps IH]; intros w Hw; [exact Hw|].
  simpl. apply IH. unfold step. apply serve_service_written.
  intros text expires. simpl. apply Hw.
Qed.

Lemma lookup_fresh_snapshot (c : Cache) (text : string) (now d : Z) :
  0 <= d < 3600 ->
  cache_lookup (<[snapshot_key := (text, now + 3600)]> c) (now + d) snapshot_key
  = Some text.
Proof.
  intros Hd. unfold cache_lookup. rewrite lookup_insert_eq.
  destruct (Z.ltb_spec (now + d) (now + 3600)); [reflexivity | lia].
Qed.

(** C2. When the snapshot key is absent and the collaborators answer,
    listing queries the store for all tasks, writes their serialisation
    under the snapshot key with an expiry 3600 seconds ahead, and answers
    200 with the tasks just fetched. *)
Theorem list_miss_fills faults w :
  faults OpRedisGet = false ->
  faults OpFindAll = false ->
  faults OpRedisSetEx = false ->
  cache_lookup (cache w) (clock w) snapshot_key = None ->
  let snapshot := stringify (tasks_toJSON (rows (store w))) in
  serve faults ListAll w
  = (Ok tt,
     mkCtx (mkWorld (store w)
                    (<[snapshot_key := (snapshot, clock w + 3600)]> (cache w))
                    (clock w))
           (mkRes 200 (Some snapshot))
           [RedisGet snapshot_key; FindAll; RedisSetEx snapshot_key 3600 snapshot]
           ["Redis: Cache MISS"]).
Proof.
  intros Hg Hf Hs Hmiss snapshot. run. rewrite Hg. simpl.
  unfold snapshot_key in Hmiss. rewrite Hmiss. simpl.
  rewrite Hf. simpl. rewrite Hs. reflexivity.
Qed.

(** C1. In every state the service reaches from one without a snapshot,
    whatever the history of requests, failures and delays, a listing that
    finds the snapshot key present answers 200 with the deserialised
    snapshot, which prints as the stored text; its only call is the Redis
    read, the store is not queried and the world is unchanged. *)
Theorem list_hit_serves_snapshot (steps : list Step) (w0 : World) faults
    (text : string) :
  cache w0 !! snapshot_key = None ->
  let w := run steps w0 in
  faults OpRedisGet = false ->
  cache_lookup (cache w) (clock w) snapshot_key = Some text ->
  exists v,
    parse text = Some v
    /\ stringify v = text
    /\ serve faults ListAll w
       = (Ok tt,
          mkCtx w (mkRes 200 (Some (stringify v))) [RedisGet snapshot_key]
                ["Redis: Cache HIT"]).
Proof.
  intros Hcold w Hg Hhit.
  assert (Hw : service_written w).
  { apply run_service_written. intros t e H. congruence. }
  destruct (lookup_live _ _ _ _ Hhit) as [expires He].
  destruct (Hw text expires He) as [ts ->].
  exists (tasks_toJSON ts). split; [apply parse_snapshot|]. split; [reflexivity|].
  unfold serve, app. now rewrite (get_tasks_hit faults (start w) ts Hg Hhit).
Qed.

(** C9. After a miss has filled the cache, the stored snapshot is the
    serialisation of the rows, and it is what the miss answered; a second
    listing less than 3600 seconds later, with nothing in between, finds
    it and answers 200 with exactly those bytes after a single Redis read,
    without querying the store.  Parsing the stored snapshot and printing
    it again gives the stored text. *)
Theorem list_hit_after_miss faults faults' w (d : Z) :
  faults OpRedisGet = false ->
  faults OpFindAll = false ->
  faults OpRedisSetEx = false ->
  cache_lookup (cache w) (clock w) snapshot_key = None ->
  0 <= d < 3600 ->
  faults' OpRedisGet = false ->
  let stored := stringify (tasks_toJSON (rows (store w))) in
  let miss := serve faults ListAll w in
  let later := tick d (world (snd miss)) in
  res (snd miss) = mkRes 200 (Some stored)
  /\ cache_lookup (cache later) (clock later) snapshot_key = Some stored
  /\ serve faults' ListAll later
     = (Ok tt,
        mkCtx later (mkRes 200 (Some stored)) [RedisGet snapshot_key]
              ["Redis: Cache HIT"])
  /\ stringify <$> parse stored = Some stored.
Proof.
  intros Hg Hf Hs Hmiss Hd Hg' stored miss later.
  pose proof (get_tasks_miss faults (start w) Hg Hf Hs Hmiss) as Em.
  cbv zeta in Em. change (get_tasks faults (start w)) with miss in Em.
  cbn [world res start statusCode trace console] in Em. fold stored in Em.
  assert (Hlook : cache_lookup (cache later) (clock later) snapshot_key
                  = Some stored).
  { subst later. rewrite Em. simpl. now apply lookup_fresh_snapshot. }
  clearbody later. rewrite Em. cbn [snd res].
  split; [reflexivity|]. split; [exact Hlook|]. split.
  - unfold serve, app.
    now rewrite (get_tasks_hit faults' (start later) (rows (store w)) Hg' Hlook).
  - unfold stored. now rewrite parse_snapshot.
Qed.

(** C10. Two create requests that agree on [description] are served
    identically, whatever else their bodies hold (a [completed] field in
    particular); a row that is added has [completed = false]. *)
Theorem create_ignores_completed faults w (b1 b2 : Body) :
  b1 !! "description" = b2 !! "description" ->
  serve faults (CreateTask b1) w = serve faults (CreateTask b2) w
  /\ let rows' := rows (store (world (snd (serve faults (CreateTask b1) w)))) in
     rows' = rows (store w)
     \/ exists t, rows' = rows (store w) ++ [t] /\ completed t = false.
Proof.
  intros H. split; [unfold serve, app, post_tasks; now rewrite H|].
  run. cbv zeta.
  destruct (b1 !! "description") as [[|b|n|d|l|m]|]; simpl; try (now left).
  - destruct b; simpl; [|now left]. destruct (faults OpCreate); now left.
  - destruct (n =? 0); simpl; [now left|]. destruct (faults OpCreate); now left.
  - destruct (String.eqb d EmptyString); simpl; [now left|].
    destruct (faults OpCreate); simpl; [now left|].
    right. exists (mkTask (next_id (store w)) d false). split; [|reflexivity].
    destruct (faults OpRedisDel); reflexivity.
  - destruct (faults OpCreate); now left.
  - destruct (faults OpCreate); now left.
Qed.

(** C3. A create, update or delete that succeeds leaves the snapshot key
    out of the cache; its calls are store calls followed by one deletion
    of the snapshot key. *)
Theorem mutation_evicts faults w (req : Request) :
  is_mutation req = true ->
  succeeded (serve faults req w) = true ->
  let c := snd (serve faults req w) in
  cache (world c) !! snapshot_key = None
  /\ exists pre,
       trace c = pre ++ [RedisDel snapshot_key]
       /\ pre <> [] /\ forallb is_store_event pre = true.
Proof.
  destruct req as [|body|k|k body|k]; try discriminate; intros _; run.
  - destruct (truthy (body !! "description")); simpl; [|discriminate].
    destruct (faults OpCreate); simpl; [discriminate|].
    destruct (body !! "description") as [[]|]; simpl; try discriminate.
    destruct (faults OpRedisDel); simpl; [discriminate|]. intros _.
    split; [apply lookup_delete_eq|]. eexists [_]. repeat split. discriminate.
  - destruct (faults OpFindByPk); simpl; [discriminate|].
    destruct (find_row k (rows (store w))) as [t|]; simpl; [|discriminate].
    destruct (faults OpUpdate); simpl; [discriminate|].
    match goal with
    | |- context [match ?x with Some _ => _ | None => _ end] => destruct x
    end; simpl; [|discriminate].
    destruct (faults OpRedisDel); simpl; [discriminate|]. intros _.
    split; [apply lookup_delete_eq|]. eexists [_; _]. repeat split. discriminate.
  - destruct (faults OpDestroy); simpl; [discriminate|].
    destruct (_ =? 0)%nat; simpl; [discriminate|].
    destruct (faults OpRedisDel); simpl; [discriminate|]. intros _.
    split; [apply lookup_delete_eq|]. eexists [_]. repeat split. discriminate.
Qed.

(** C5. Get, update and delete of an identifier the store does not hold
    are answered 404 after one store call; no Redis command is issued and
    the world, cache included, is unchanged. *)
Theorem unknown_id_not_found faults w (req : Request) (k : Z) :
  target req = Some k ->
  find_row k (rows (store w)) = None ->
  faults OpFindByPk = false ->
  faults OpDestroy = false ->
  exists e,
    is_store_event e = true
    /\ serve faults req w
       = (Ok tt,
          mkCtx w (mkRes 404 (Some (stringify (error_body "Tarefa não encontrada"))))
                [e] []).
Proof.
  intros Ht Hk Hf Hd.
  destruct req as [|body|k'|k' body|k']; try discriminate;
    injection Ht as ->; run.
  - rewrite Hf. simpl. rewrite Hk. eexists. split; [|reflexivity]. reflexivity.
  - rewrite Hf. simpl. rewrite Hk. eexists. split; [|reflexivity]. reflexivity.
  - rewrite Hd. simpl. rewrite (filter_absent k _ Hk), Nat.sub_diag. simpl.
    rewrite store_eta, world_eta. eexists. split; [|reflexivity]. reflexivity.
Qed.

(** C6. When a Redis command fails while the list is served (the lookup,
    or the snapshot write), the answer is 500 with the error body and the
    world is unchanged; after a failed lookup the store is not queried. *)
Theorem list_cache_failure faults w :
  cache_failed faults (trace (snd (serve faults ListAll w))) = true ->
  let out := serve faults ListAll w in
  fst out = Ok tt
  /\ res (snd out)
     = mkRes 500 (Some (stringify (error_body "Erro ao buscar tarefas")))
  /\ world (snd out) = w
  /\ (faults OpRedisGet = true -> trace (snd out) = [RedisGet snapshot_key]).
Proof.
  run. destruct (faults OpRedisGet) eqn:Hg; simpl.
  - intros _. repeat split.
  - destruct (cache_lookup (cache w) (clock w) "tasks:all") as [text|]; simpl.
    + destruct (String.eqb text EmptyString); simpl.
      * destruct (faults OpFindAll) eqn:Hf; simpl;
          [| destruct (faults OpRedisSetEx) eqn:Hs; simpl ];
          unfold cache_failed; simpl; rewrite ?Hg, ?Hs; simpl;
          intros H; try discriminate H; repeat split; discriminate.
      * destruct (parse text); simpl; unfold cache_failed; simpl;
          rewrite Hg; simpl; discriminate.
    + destruct (faults OpFindAll) eqn:Hf; simpl;
        [| destruct (faults OpRedisSetEx) eqn:Hs; simpl ];
        unfold cache_failed; simpl; rewrite ?Hg, ?Hs; simpl;
        intros H; try discriminate H; repeat split; discriminate.
Qed.

(** C7. When the deletion of the snapshot key fails after the store
    calls of a create, update or delete went through, the handler stops
    there, rejecting, and the router of Express 5 answers the caller 500
    with the error page: the failed deletion is the last call, no success
    is reported and the cache is left as it was. *)
Theorem eviction_failure_is_answered (error_page : Error -> string) faults w
    (req : Request) :
  is_mutation req = true ->
  faults OpRedisDel = true ->
  In (RedisDel snapshot_key) (trace (snd (serve faults req w))) ->
  let out := answer error_page faults req w in
  fst (serve faults req w) = Throw RedisError
  /\ fst out = Ok tt
  /\ res (snd out) = mkRes 500 (Some (error_page RedisError))
  /\ cache (world (snd out)) = cache w
  /\ exists pre,
       trace (snd out) = pre ++ [RedisDel snapshot_key]
       /\ pre <> [] /\ forallb is_store_event pre = true.
Proof.
  intros Hm Hdel.
  unfold answer, dispatch, default_error_handler, error_status, try_catch.
  destruct req as [|body|k|k body|k]; try discriminate; run; rewrite ?Hdel;
    split_run; intros Hin;
    try (exfalso; simpl in Hin; intuition discriminate);
    (repeat split;
     (eexists [_] + eexists [_; _]);
     (split; [reflexivity | split; [discriminate | reflexivity]])).
Qed.

(** *** The theorems at concrete requests *)

Lemma list_hit_serves_snapshot_witness :
  let w := run warming_history cold_world in
  exists v,
    parse (stringify (tasks_toJSON [mkTask 1 "buy milk" false])) = Some v
    /\ stringify v = stringify (tasks_toJSON [mkTask 1 "buy milk" false])
    /\ serve no_faults ListAll w
       = (Ok tt,
          mkCtx w (mkRes 200 (Some (stringify v))) [RedisGet snapshot_key]
                ["Redis: Cache HIT"]).
Proof.
  apply (list_hit_serves_snapshot warming_history cold_world no_faults
           (stringify (tasks_toJSON [mkTask 1 "buy milk" false])));
    [reflexivity | reflexivity | vm_compute; reflexivity].
Defined.

Lemma eviction_failure_is_answered_witness :
  let out :=
    answer production_error_page eviction_fails (CreateTask buy_milk) warm_world in
  fst (serve eviction_fails (CreateTask buy_milk) warm_world) = Throw RedisError
  /\ fst out = Ok tt
  /\ res (snd out) = mkRes 500 (Some "Internal Server Error")
  /\ cache (world (snd out)) = cache warm_world
  /\ exists pre,
       trace (snd out) = pre ++ [RedisDel snapshot_key]
       /\ pre <> [] /\ forallb is_store_event pre = true.
Proof.
  apply (eviction_failure_is_answered production_error_page eviction_fails
           warm_world (CreateTask buy_milk));
    [reflexivity | reflexivity | vm_compute; auto].
Defined.

Lemma list_miss_fills_witness :
  serve no_faults ListAll cold_world
  = (Ok tt,
     mkCtx (mkWorld (mkStore [] 1) {[snapshot_key := ("[]", 3600)]} 0)
           (mkRes 200 (Some "[]"))
           [RedisGet snapshot_key; FindAll; RedisSetEx snapshot_key 3600 "[]"]
           ["Redis: Cache MISS"]).
Proof.
  apply (list_miss_fills no_faults cold_world); reflexivity.
Defined.

Lemma mutation_evicts_witness :
  let c := snd (serve no_faults (DeleteTask 5) warm_world) in
  cache (world c) !! snapshot_key = None
  /\ exists pre,
       trace c = pre ++ [RedisDel snapshot_key]
       /\ pre <> [] /\ forallb is_store_event pre = true.
Proof.
  apply (mutation_evicts no_faults warm_world (DeleteTask 5));
    vm_compute; reflexivity.
Defined.

Lemma unknown_id_not_found_witness :
  exists e,
    is_store_event e = true
    /\ serve no_faults (DeleteTask 999) warm_world
       = (Ok tt,
          mkCtx warm_world
                (mkRes 404 (Some (stringify (error_body "Tarefa não encontrada"))))
                [e] []).
Proof.
  apply (unknown_id_not_found no_faults warm_world (DeleteTask 999) 999);
    reflexivity.
Defined.

Lemma list_cache_failure_witness :
  let out := serve lookup_fails ListAll warm_world in
  fst out = Ok tt
  /\ res (snd out)
     = mkRes 500 (Some (stringify (error_body "Erro ao buscar tarefas")))
  /\ world (snd out) = warm_world
  /\ (lookup_fails OpRedisGet = true -> trace (snd out) = [RedisGet snapshot_key]).
Proof.
  apply (list_cache_failure lookup_fails warm_world). vm_compute. reflexivity.
Defined.

Lemma create_inserts_witness :
  let t := mkTask 6 "buy milk" false in
  serve no_faults (CreateTask {["description" := JStr "buy milk"]}) warm_world
  = (Ok tt,
     mkCtx (mkWorld (mkStore (rows sample_store ++ [t]) (6 + 1))
                    (delete snapshot_key (cache warm_world)) 0)
           (mkRes 201 (Some (stringify (Task_toJSON t))))
           [Create (Some (JStr "buy milk")) (Some (JBool false));
            RedisDel snapshot_key]
           []).
Proof.
  apply (create_inserts no_faults warm_world
           {["description" := JStr "buy milk"]} "buy milk");
    [reflexivity | discriminate | reflexivity | reflexivity].
Defined.

Lemma list_hit_after_miss_witness :
  let stored := stringify (tasks_toJSON (rows sample_store)) in
  let cold := mkWorld sample_store ∅ 0 in
  let miss := serve no_faults ListAll cold in
  let later := tick 10 (world (snd miss)) in
  res (snd miss) = mkRes 200 (Some stored)
  /\ cache_lookup (cache later) (clock later) snapshot_key = Some stored
  /\ serve no_faults ListAll later
     = (Ok tt,
        mkCtx later (mkRes 200 (Some stored)) [RedisGet snapshot_key]
              ["Redis: Cache HIT"])
  /\ stringify <$> parse stored = Some stored.
Proof.
  apply (list_hit_after_miss no_faults no_faults (mkWorld sample_store ∅ 0) 10);
    [reflexivity | reflexivity | reflexivity | reflexivity | lia | reflexivity].
Defined.

Lemma create_ignores_completed_witness :
  let b1 : Body := {["description" := JStr "buy milk"; "completed" := JBool true]} in
  let b2 : Body := {["description" := JStr "buy milk"]} in
  serve no_faults (CreateTask b1) warm_world
  = serve no_faults (CreateTask b2) warm_world
  /\ let rows' :=
       rows (store (world (snd (serve no_faults (CreateTask b1) warm_world)))) in
     rows' = rows (store warm_world)
     \/ exists t, rows' = rows (store warm_world) ++ [t] /\ completed t = false.
Proof.
  apply (create_ignores_completed no_faults warm_world
           {["description" := JStr "buy milk"; "completed" := JBool true]}
           {["description" := JStr "buy milk"]}).
  vm_compute. reflexivity.
Defined.

End ServerFacts.

(* ===================================================================== *)
(** ** Further properties of the task routes *)
(* ===================================================================== *)

Module TaskRouteFacts.
Import JSON Backend Server History JSONFacts ServerFacts.

Lemma replace_row_ids (t : Task) (ts : list Task) :
  map id (replace_row t ts) = map id ts.
Proof.
  unfold replace_row. rewrite map_map. apply map_ext_in. intros r _.
  destruct (Z.eqb_spec (id r) (id t)) as [E|_]; [now rewrite E | reflexivity].
Qed.

Lemma set_fields_id (d c : option json) (t t' : Task) :
  set_description d t ≫= set_completed c = Some t' -> id t' = id t.
Proof.
  destruct d as [[]|], c as [[]|]; simpl; intros [= <-]; reflexivity.
Qed.

Lemma filter_all (k : Z) (ts : list Task) :
  (length ts - length (List.filter (fun t => negb (id t =? k)%Z) ts) = 0)%nat ->
  List.filter (fun t => negb (id t =? k)) ts = ts.
Proof.
  induction ts as [|t ts IH]; [reflexivity|]. simpl.
  pose proof (filter_length_le (fun t => negb (id t =? k)) ts) as Hle.
  destruct (id t =? k); simpl; intros H; [lia|]. rewrite IH; [reflexivity | lia].
Qed.

Lemma find_row_filter (k : Z) (ts : list Task) :
  find_row k (List.filter (fun t => negb (id t =? k)) ts) = None.
Proof.
  unfold find_row. induction ts as [|t ts IH]; [reflexivity|]. simpl.
  destruct (id t =? k) eqn:E; simpl; [exact IH | now rewrite E].
Qed.

(** X1. Listing never rejects: whatever fails, a response goes out, 200 or
    500, and the rows of the store are left as they were. *)
Theorem list_always_answers faults w :
  let out := serve faults ListAll w in
  fst out = Ok tt
  /\ body (res (snd out)) <> None
  /\ (statusCode (res (snd out)) = 200 \/ statusCode (res (snd out)) = 500)%nat
  /\ store (world (snd out)) = store w.
Proof.
  run. destruct (faults OpRedisGet); simpl; [repeat split; auto; discriminate|].
  destruct (cache_lookup (cache w) (clock w) "tasks:all") as [text|]; simpl;
    [destruct (String.eqb text EmptyString); simpl;
       [|destruct (parse text); simpl] |];
    try (destruct (faults OpFindAll); simpl;
           [|destruct (faults OpRedisSetEx); simpl]);
    repeat split; auto; discriminate.
Qed.

(** X2. Reading one task by identifier makes a single store call and no
    Redis call, and changes nothing, whatever fails. *)
Theorem get_task_bypasses_cache faults w (k : Z) :
  let out := serve faults (GetTask k) w in
  trace (snd out) = [FindByPk k] /\ world (snd out) = w.
Proof. run. split_run; split; reflexivity. Qed.

(** X3. Reading a task the store holds answers 200 with that record, also
    while Redis is failing. *)
Theorem get_task_found faults w (k : Z) (t : Task) :
  faults OpFindByPk = false ->
  find_row k (rows (store w)) = Some t ->
  serve faults (GetTask k) w
  = (Ok tt, mkCtx w (mkRes 200 (Some (stringify (Task_toJSON t)))) [FindByPk k] []).
Proof. intros Hf Hk. run. rewrite Hf. simpl. now rewrite Hk. Qed.

(** X4. An update never adds or removes a row and never changes an
    identifier: the identifiers of the rows, in order, and the next
    identifier are what they were, whatever the body and whatever fails. *)
Theorem update_keeps_identifiers faults w (k : Z) (body : Body) :
  let w' := world (snd (serve faults (UpdateTask k body) w)) in
  map id (rows (store w')) = map id (rows (store w))
  /\ next_id (store w') = next_id (store w).
Proof.
  run. split_run; split; try reflexivity; apply replace_row_ids.
Qed.

(** X5. An update of a task the store holds, with a text description
    and a boolean flag where the body gives them, sets exactly the fields
    given and keeps the others; it deletes the snapshot key and answers
    200 with the updated record. *)
Theorem update_applies_fields faults w (k : Z) (body : Body) (t : Task)
    (d : option string) (c : option bool) :
  faults OpFindByPk = false ->
  faults OpUpdate = false ->
  faults OpRedisDel = false ->
  find_row k (rows (store w)) = Some t ->
  body !! "description" = JStr <$> d ->
  body !! "completed" = JBool <$> c ->
  let t' := mkTask (id t) (default (description t) d) (default (completed t) c) in
  serve faults (UpdateTask k body) w
  = (Ok tt,
     mkCtx (mkWorld (mkStore (replace_row t' (rows (store w))) (next_id (store w)))
                    (delete snapshot_key (cache w)) (clock w))
           (mkRes 200 (Some (stringify (Task_toJSON t'))))
           [FindByPk k; Update (id t) (JStr <$> d) (JBool <$> c);
            RedisDel snapshot_key]
           []).
Proof.
  intros Hf Hu Hr Hk Hd Hc t'. run. rewrite Hf. simpl. rewrite Hk. simpl.
  rewrite Hu, Hd, Hc. subst t'.
  destruct t as [i dt ct], d as [d|], c as [c|]; simpl; rewrite Hr; reflexivity.
Qed.

(** X6. Deleting a task the store holds removes every row with that
    identifier and no other, deletes the snapshot key and answers 204 with
    an empty body; the identifier is then unknown to the store. *)
Theorem delete_removes faults w (k : Z) (t : Task) :
  faults OpDestroy = false ->
  faults OpRedisDel = false ->
  find_row k (rows (store w)) = Some t ->
  let kept := List.filter (fun r => negb (id r =? k)) (rows (store w)) in
  serve faults (DeleteTask k) w
  = (Ok tt,
     mkCtx (mkWorld (mkStore kept (next_id (store w)))
                    (delete snapshot_key (cache w)) (clock w))
           (mkRes 204 (Some EmptyString))
           [Destroy k; RedisDel snapshot_key] [])
  /\ find_row k kept = None.
Proof.
  intros Hd Hr Hk kept. split; [|apply find_row_filter].
  run. rewrite Hd. simpl.
  destruct (Nat.eqb_spec
              (length (rows (store w))
               - length (List.filter (fun r => negb (id r =? k)) (rows (store w))))
              0) as [E|_].
  - apply filter_all in E. unfold find_row in Hk.
    apply find_some in Hk as [Hin Hid].
    assert (In t (List.filter (fun r => negb (id r =? k)) (rows (store w))))
      as Hin' by now rewrite E.
    apply filter_In in Hin' as [_ Hne]. now rewrite Hid in Hne.
  - simpl. rewrite Hr. reflexivity.
Qed.

(** X7. A create request is answered 400 exactly when its description is
    falsy: missing, [null], [false], [0] or the empty text. *)
Theorem create_400_iff_falsy faults w (body : Body) :
  statusCode (res (snd (serve faults (CreateTask body) w))) = 400%nat
  <-> truthy (body !! "description") = false.
Proof.
  run. destruct (truthy (body !! "description")) eqn:Ht; simpl.
  - split; [|discriminate]. split_run; discriminate.
  - split; reflexivity.
Qed.

(** X8. The service uses one key of the cache: no request, whatever
    fails, changes what another key holds. *)
Theorem other_keys_untouched faults w (req : Request) (k : string) :
  k <> snapshot_key ->
  cache (world (snd (serve faults req w))) !! k = cache w !! k.
Proof.
  intros Hk. unfold snapshot_key in Hk.
  destruct req; run; split_run;
    rewrite ?lookup_insert_ne, ?lookup_delete_ne by congruence; reflexivity.
Qed.

(** X9. A request that fails on the store leaves store and cache as they
    were: there is no eviction without a mutation and no partial
    mutation. *)
Theorem store_failure_no_effect faults w (req : Request) :
  fst (serve faults req w) = Throw DatabaseError ->
  world (snd (serve faults req w)) = w.
Proof.
  destruct req; run; split_run; try discriminate; try reflexivity.
Qed.

Lemma success_evicts faults w (req : Request) :
  is_mutation req = true ->
  succeeded (serve faults req w) = true ->
  cache (world (snd (serve faults req w))) !! snapshot_key = None.
Proof.
  destruct req; try discriminate; intros _; run; split_run;
    try discriminate; intros _; apply lookup_delete_eq.
Qed.

Lemma list_on_miss faults w :
  cache_lookup (cache w) (clock w) snapshot_key = None ->
  succeeded (serve faults ListAll w) = true ->
  let snapshot := stringify (tasks_toJSON (rows (store w))) in
  body (res (snd (serve faults ListAll w))) = Some snapshot
  /\ trace (snd (serve faults ListAll w))
     = [RedisGet snapshot_key; FindAll; RedisSetEx snapshot_key 3600 snapshot].
Proof.
  intros Hmiss. unfold snapshot_key in Hmiss. run.
  destruct (faults OpRedisGet); simpl; [discriminate|]. rewrite Hmiss. simpl.
  destruct (faults OpFindAll); simpl; [discriminate|].
  destruct (faults OpRedisSetEx); simpl; [discriminate|]. now split.
Qed.

Lemma lookup_absent (c : Cache) (now : Z) (k : string) :
  c !! k = None -> cache_lookup c now k = None.
Proof. unfold cache_lookup. now intros ->. Qed.

(** X10. After a create, update or delete that succeeds, the next listing
    that succeeds, however much later, queries the store and answers the
    rows the store holds then: a successful write is never followed by a
    stale list. *)
Theorem list_after_mutation_is_fresh faults faults' w (req : Request) (d : Z) :
  is_mutation req = true ->
  succeeded (serve faults req w) = true ->
  let w' := tick d (world (snd (serve faults req w))) in
  succeeded (serve faults' ListAll w') = true ->
  body (res (snd (serve faults' ListAll w')))
  = Some (stringify (tasks_toJSON (rows (store w'))))
  /\ In FindAll (trace (snd (serve faults' ListAll w'))).
Proof.
  intros Hm Hs w' Hl.
  assert (Hmiss : cache_lookup (cache w') (clock w') snapshot_key = None).
  { apply lookup_absent. subst w'. simpl. now apply success_evicts. }
  destruct (list_on_miss faults' w' Hmiss Hl) as [Hb Ht].
  split; [exact Hb|]. rewrite Ht. simpl. auto.
Qed.

(** One request keeps the snapshot coherent when its eviction does not
    fail. *)
Lemma serve_coherent faults w (req : Request) :
  faults OpRedisDel = false ->
  coherent w ->
  coherent (world (snd (serve faults req w))).
Proof.
  intros Hdel Hw text expires. unfold coherent, snapshot_key in *.
  destruct req; run; rewrite ?Hdel; split_run;
    rewrite ?lookup_delete_eq, ?lookup_insert_eq;
    try discriminate; try (now apply Hw); try (now intros [= <- _]).
  match goal with
  | H : (_ =? 0)%nat = true |- _ => apply Nat.eqb_eq, filter_all in H; rewrite H
  end.
  apply Hw.
Qed.

(** X11. Along any sequential history in which the deletion of the
    snapshot key never fails, whatever else fails and whatever time
    passes, a stored snapshot is always the serialisation of the rows the
    store holds. *)
Theorem history_keeps_coherence (steps : list Step) (w : World) :
  coherent w ->
  evictions_succeed steps ->
  coherent (run steps w).
Proof.
  intros Hw Hs. revert w Hw. induction Hs as [|s steps Hdel _ IH]; intros w Hw.
  - exact Hw.
  - simpl. apply IH. unfold step. apply serve_coherent; [exact Hdel|].
    intros text expires. simpl. apply Hw.
Qed.

(** X12. Where the snapshot is coherent, every listing that succeeds,
    from the cache or from the store, answers the serialisation of the
    rows the store holds. *)
Theorem coherent_list_is_fresh faults w :
  coherent w ->
  succeeded (serve faults ListAll w) = true ->
  body (res (snd (serve faults ListAll w)))
  = Some (stringify (tasks_toJSON (rows (store w)))).
Proof.
  intros Hw Hs.
  destruct (cache_lookup (cache w) (clock w) snapshot_key) as [text|] eqn:Hl.
  - destruct (lookup_live _ _ _ _ Hl) as [expires He].
    apply Hw in He. subst text.
    destruct (faults OpRedisGet) eqn:Hg.
    + exfalso. revert Hs. run. rewrite Hg. discriminate.
    + unfold serve, app.
      now rewrite (get_tasks_hit faults (start w) _ Hg Hl).
  - now apply list_on_miss.
Qed.

(** X13. When the deletion of the snapshot key fails after a create went
    through, the store holds the new row while the next listing, served
    from the cache, still answers the snapshot that the service stored
    before, the serialisation of an earlier task list, without consulting
    the store. *)
Theorem stale_list_after_failed_eviction faults w (body : Body)
    (d : string) (ts : list Task) :
  body !! "description" = Some (JStr d) ->
  d <> EmptyString ->
  faults OpCreate = false ->
  faults OpRedisDel = true ->
  cache_lookup (cache w) (clock w) snapshot_key
  = Some (stringify (tasks_toJSON ts)) ->
  let w' := world (snd (serve faults (CreateTask body) w)) in
  rows (store w') = rows (store w) ++ [mkTask (next_id (store w)) d false]
  /\ serve no_faults ListAll w'
     = (Ok tt,
        mkCtx w' (mkRes 200 (Some (stringify (tasks_toJSON ts))))
              [RedisGet snapshot_key] ["Redis: Cache HIT"]).
Proof.
  intros Hb Hd Hc Hr Hl w'.
  assert (Hw' : w' = mkWorld (mkStore (rows (store w) ++ [mkTask (next_id (store w)) d false])
                                      (next_id (store w) + 1))
                             (cache w) (clock w)).
  { subst w'. run. rewrite Hb. simpl. apply String.eqb_neq in Hd. rewrite Hd. simpl.
    rewrite Hc. simpl. rewrite Hr. reflexivity. }
  rewrite Hw'. clear Hw'. split; [reflexivity|].
  set (new := mkWorld _ (cache w) (clock w)).
  unfold serve, app.
  now rewrite (get_tasks_hit no_faults (start new) ts eq_refl Hl).
Qed.

(** X14. A snapshot is served for less than 3600 seconds: a listing 3600
    seconds or more after the miss that stored it queries the store again
    and stores a snapshot with a new expiry. *)
Theorem list_after_expiry_refetches faults w (d : Z) :
  faults OpRedisGet = false ->
  faults OpFindAll = false ->
  faults OpRedisSetEx = false ->
  cache_lookup (cache w) (clock w) snapshot_key = None ->
  3600 <= d ->
  let later := tick d (world (snd (serve faults ListAll w))) in
  let snapshot := stringify (tasks_toJSON (rows (store w))) in
  trace (snd (serve faults ListAll later))
  = [RedisGet snapshot_key; FindAll; RedisSetEx snapshot_key 3600 snapshot]
  /\ cache (world (snd (serve faults ListAll later))) !! snapshot_key
     = Some (snapshot, clock w + d + 3600).
Proof.
  intros Hg Hf Hs Hmiss Hd later snapshot. subst later. unfold serve, app.
  pose proof (get_tasks_miss faults (start w) Hg Hf Hs Hmiss) as Em.
  cbv zeta in Em. rewrite !Em. clear Em. cbn [snd world start].
  set (later := tick d _).
  assert (Hgone : cache_lookup (cache later) (clock later) snapshot_key = None).
  { subst later. unfold cache_lookup. simpl. rewrite lookup_insert_eq.
    destruct (Z.ltb_spec (clock w + d) (clock w + 3600)); [lia | reflexivity]. }
  pose proof (get_tasks_miss faults (start later) Hg Hf Hs Hgone) as El.
  cbv zeta in El. rewrite El. subst later. simpl. split; [reflexivity|].
  apply lookup_insert_eq.
Qed.

(** *** The theorems at concrete requests *)

Lemma get_task_found_witness :
  serve redis_down (GetTask 5) warm_world
  = (Ok tt,
     mkCtx warm_world (mkRes 200 (Some (stringify (Task_toJSON report))))
           [FindByPk 5] []).
Proof.
  apply (get_task_found redis_down warm_world 5 report); reflexivity.
Defined.

Lemma update_applies_fields_witness :
  let t' := mkTask 5 "write report" true in
  serve no_faults (UpdateTask 5 {["completed" := JBool true]}) warm_world
  = (Ok tt,
     mkCtx (mkWorld (mkStore (replace_row t' (rows (store warm_world)))
                             (next_id (store warm_world)))
                    (delete snapshot_key (cache warm_world)) (clock warm_world))
           (mkRes 200 (Some (stringify (Task_toJSON t'))))
           [FindByPk 5; Update 5 None (Some (JBool true)); RedisDel snapshot_key]
           []).
Proof.
  exact (update_applies_fields no_faults warm_world 5
           {["completed" := JBool true]} report None (Some true)
           eq_refl eq_refl eq_refl eq_refl eq_refl eq_refl).
Defined.

Lemma delete_removes_witness :
  serve no_faults (DeleteTask 5) warm_world
  = (Ok tt,
     mkCtx (mkWorld (mkStore [] 6) (delete snapshot_key (cache warm_world)) 0)
           (mkRes 204 (Some EmptyString))
           [Destroy 5; RedisDel snapshot_key] [])
  /\ find_row 5 [] = None.
Proof.
  exact (delete_removes no_faults warm_world 5 report eq_refl eq_refl eq_refl).
Defined.

Lemma other_keys_untouched_witness :
  cache (world (snd (serve no_faults (DeleteTask 5) warm_world))) !! "sessions:1"
  = cache warm_world !! "sessions:1".
Proof.
  apply (other_keys_untouched no_faults warm_world (DeleteTask 5) "sessions:1").
  discriminate.
Defined.

Lemma store_failure_no_effect_witness :
  world (snd (serve create_fails (CreateTask buy_milk) warm_world)) = warm_world.
Proof.
  apply (store_failure_no_effect create_fails warm_world (CreateTask buy_milk)).
  vm_compute. reflexivity.
Defined.

Lemma list_after_mutation_is_fresh_witness :
  let w' := tick 10 (world (snd (serve no_faults (CreateTask buy_milk) warm_world))) in
  body (res (snd (serve no_faults ListAll w')))
  = Some (stringify (tasks_toJSON (rows (store w'))))
  /\ In FindAll (trace (snd (serve no_faults ListAll w'))).
Proof.
  apply (list_after_mutation_is_fresh no_faults no_faults warm_world
           (CreateTask buy_milk) 10);
    vm_compute; reflexivity.
Defined.

Lemma history_keeps_coherence_witness : coherent (run sample_history cold_world).
Proof.
  apply (history_keeps_coherence sample_history cold_world).
  - intros text expires H. vm_compute in H. discriminate H.
  - repeat constructor.
Defined.

Lemma coherent_list_is_fresh_witness :
  body (res (snd (serve no_faults ListAll warm_world)))
  = Some (stringify (tasks_toJSON (rows (store warm_world)))).
Proof.
  apply (coherent_list_is_fresh no_faults warm_world).
  - intros text expires H. vm_compute in H. injection H as <- _. reflexivity.
  - vm_compute. reflexivity.
Defined.

Lemma stale_list_after_failed_eviction_witness :
  let w' := world (snd (serve eviction_fails (CreateTask buy_milk) warm_world)) in
  rows (store w') = rows (store warm_world) ++ [mkTask 6 "buy milk" false]
  /\ serve no_faults ListAll w'
     = (Ok tt,
        mkCtx w' (mkRes 200 (Some sample_snapshot)) [RedisGet snapshot_key]
              ["Redis: Cache HIT"]).
Proof.
  exact (stale_list_after_failed_eviction eviction_fails warm_world buy_milk
           "buy milk" (rows sample_store)
           eq_refl ltac:(discriminate) eq_refl eq_refl eq_refl).
Defined.

Lemma list_after_expiry_refetches_witness :
  let later := tick 3600 (world (snd (serve no_faults ListAll cold_world))) in
  trace (snd (serve no_faults ListAll later))
  = [RedisGet snapshot_key; FindAll; RedisSetEx snapshot_key 3600 "[]"]
  /\ cache (world (snd (serve no_faults ListAll later))) !! snapshot_key
     = Some ("[]", 0 + 3600 + 3600).
Proof.
  apply (list_after_expiry_refetches no_faults cold_world 3600);
    [reflexivity | reflexivity | reflexivity | reflexivity | lia].
Defined.

End TaskRouteFacts.

(* ===================================================================== *)
(** ** Properties of authentication and of the account routes *)
(* ===================================================================== *)

Module AccountsFacts.
Import JSON Accounts JSONFacts.

#[local] Arguments Server.truthy : simpl never.

Ltac arun :=
  unfold put_profile_route, upload_single, authenticateToken, signin, signup,
    put_profile, answered, start, try_catch, throw, perform, lift, console_error,
    res_status, res_json, mbind, M_bind, mret, M_ret;
  simpl.

Ltac split_acc :=
  repeat (simpl;
    match goal with
    | |- context [if ?b then _ else _] => destruct b eqn:?
    | |- context [match ?x with Some _ => _ | None => _ end] => destruct x eqn:?
    | |- context [match ?x with Returns _ => _ | Fails _ => _ end] =>
        destruct x eqn:?
    end);
  simpl.

Lemma split_no_space (text : string) :
  no_space text = true -> split " " text = [text].
Proof.
  induction text as [|c text IH]; [reflexivity|]. simpl.
  destruct (Ascii.eqb c " "); simpl; [discriminate|]. intros H.
  now rewrite IH.
Qed.

Lemma split_field (field rest : string) :
  no_space field = true ->
  split " " (field +:+ String " " rest) = field :: split " " rest.
Proof.
  induction field as [|c field IH]; [reflexivity|]. simpl.
  destruct (Ascii.eqb c " "); simpl; [discriminate|]. intros H.
  now rewrite IH.
Qed.

Lemma split_ended (field tail : string) :
  no_space field = true -> ends_field tail = true ->
  exists fields, split " " (field +:+ tail) = field :: fields.
Proof.
  intros Hf Ht. destruct tail as [|c tail].
  - rewrite append_empty_r, split_no_space by assumption. eauto.
  - simpl in Ht. apply Ascii.eqb_eq in Ht. subst c.
    rewrite split_field by assumption. eauto.
Qed.

Lemma field_then_space_truthy (field rest : string) :
  truthy_text (Some (field +:+ String " " rest)) = true.
Proof. destruct field; reflexivity. Qed.

(** X15. A request with no [authorization] header, with a header that has
    no space, or with a header whose first space is followed by nothing
    or by another space, is answered 401: the token is not verified and
    the route is not entered. *)
Theorem auth_requires_second_field env (req : Req) (next : Req -> M unit) :
  headers_authorization req = None
  \/ (exists header,
        headers_authorization req = Some header /\ no_space header = true)
  \/ (exists scheme tail,
        headers_authorization req = Some (scheme +:+ String " " tail)
        /\ no_space scheme = true /\ ends_field tail = true) ->
  authenticateToken env req next start
  = (Returns tt,
     mkAcc (Backend.mkRes 401
              (Some (stringify (Server.error_body "Token não fornecido"))))
           [] []).
Proof.
  intros [H | [(header & H & Hs) | (scheme & tail & H & Hs & Ht)]];
    unfold authenticateToken; rewrite H.
  - reflexivity.
  - rewrite split_no_space by assumption. simpl.
    destruct (String.eqb header EmptyString) eqn:E; simpl; [|reflexivity].
    now rewrite E.
  - rewrite field_then_space_truthy, split_field by assumption.
    destruct (split_ended EmptyString tail eq_refl Ht) as [fields E].
    simpl in E. rewrite E. reflexivity.
Qed.

(** X16. The token is the second space-separated field of the header;
    the first field, the scheme, is not looked at.  When the library
    rejects the token the answer is 403 and the route is not entered;
    otherwise the route runs with the decoded payload in [req.user]. *)
Theorem auth_verifies_second_field env (req : Req) (next : Req -> M unit)
    (scheme token tail : string) :
  headers_authorization req = Some (scheme +:+ String " " (token +:+ tail)) ->
  no_space scheme = true ->
  no_space token = true ->
  token <> EmptyString ->
  ends_field tail = true ->
  authenticateToken env req next start
  = match jwt_verify env token (JWT_SECRET env) with
    | None =>
        (Returns tt,
         mkAcc (Backend.mkRes 403
                  (Some (stringify (Server.error_body "Token inválido"))))
               [Verify token] [])
    | Some payload =>
        next (mkReq (headers_authorization req) (body req) (file req) (Some payload))
             (mkAcc (Backend.mkRes 200 None) [Verify token] [])
    end.
Proof.
  intros H Hs Ht Hne He. unfold authenticateToken. rewrite H.
  rewrite field_then_space_truthy, split_field by assumption.
  destruct (split_ended token tail Ht He) as [fields E]. rewrite E. simpl.
  apply String.eqb_neq in Hne. rewrite Hne. simpl.
  arun. destruct (jwt_verify env token (JWT_SECRET env)); reflexivity.
Qed.

(** X17. Sign-in never rejects: whatever the libraries answer or throw,
    a response goes out, with status 200, 400 or 500. *)
Theorem signin_always_answers env (req : Req) :
  answered (signin env req start) [200; 400; 500]%nat.
Proof.
  arun. split_acc; repeat split; simpl; auto; discriminate.
Qed.

(** X18. Sign-in signs a token only for a user found by the e-mail given
    and after the password comparison answered [true]. *)
Theorem signin_signs_after_compare env (req : Req) :
  existsb is_sign (calls (snd (signin env req start))) = true ->
  exists u,
    User_findOne env (body req !! "email") = Returns (Some u)
    /\ bcrypt_compare env (body req !! "password") (password_hash u) = Returns true.
Proof.
  arun.
  destruct (User_findOne env (body req !! "email")) as [[u|]|f]; simpl;
    try discriminate.
  destruct (bcrypt_compare env (body req !! "password") (password_hash u))
    as [[]|f] eqn:Hc; simpl; try discriminate.
  intros _. eauto.
Qed.

(** X19. Sign-in for an e-mail no user has is answered 400 after the one
    lookup: the password is not compared and no token is signed. *)
Theorem signin_unknown_email env (req : Req) :
  User_findOne env (body req !! "email") = Returns None ->
  signin env req start
  = (Returns tt,
     mkAcc (Backend.mkRes 400
              (Some (stringify (Server.error_body "Usuário não encontrado"))))
           [FindOne (body req !! "email")] []).
Proof. intros H. arun. rewrite H. reflexivity. Qed.

(** X20. Sign-up never rejects and answers 201 or 400, 201 exactly when
    hashing and creation both returned; the user is created with the hash
    the library returned for the password, after hashing, or not at all. *)
Theorem signup_answers env (req : Req) :
  let out := signup env req start in
  let password := body req !! "password" in
  answered out [201; 400]%nat
  /\ (Backend.statusCode (res (snd out)) = 201%nat
      <-> exists h u,
            bcrypt_hash env password 10 = Returns h
            /\ User_create env (body req !! "name") (body req !! "email") h
               = Returns u)
  /\ forall n e h,
       In (CreateUser n e h) (calls (snd out)) ->
       bcrypt_hash env password 10 = Returns h
       /\ calls (snd out) = [Hash password 10; CreateUser n e h].
Proof.
  arun.
  destruct (bcrypt_hash env (body req !! "password") 10) as [h|f]; simpl;
    [destruct (User_create env (body req !! "name") (body req !! "email") h)
       as [u|f] eqn:Hu; simpl|];
    (split; [|split]).
  - repeat split; simpl; auto; discriminate.
  - split; [|reflexivity]. intros _. now exists h, u.
  - intros n e h' [H|[H|[]]]; [discriminate|]. now injection H as <- <- <-.
  - repeat split; simpl; auto; discriminate.
  - split; [discriminate|]. intros (h' & u' & [= <-] & Hu'). congruence.
  - intros n e h' [H|[H|[]]]; [discriminate|]. now injection H as <- <- <-.
  - repeat split; simpl; auto; discriminate.
  - split; [discriminate|]. intros (h' & u' & H & _). discriminate.
  - intros n e h' [H|[]]. discriminate.
Qed.

(** X21. The profile route reaches the user table and the storage bucket
    only behind a verified token: when any such call is made, the first
    call was the verification of a token and it returned a payload. *)
Theorem profile_requires_verified_token env (req : Req) :
  existsb touches_data (calls (snd (put_profile_route env req start))) = true ->
  exists token payload,
    hd_error (calls (snd (put_profile_route env req start))) = Some (Verify token)
    /\ jwt_verify env token (JWT_SECRET env) = Some payload.
Proof.
  unfold put_profile_route, upload_single, authenticateToken.
  destruct (headers_authorization req) as [header|]; [|discriminate].
  destruct (if truthy_text (Some header) then split " " header !! 1%nat
            else Some header) as [token|]; [|discriminate].
  destruct (truthy_text (Some token)); [|discriminate].
  destruct (jwt_verify env token (JWT_SECRET env)) as [payload|] eqn:Hv;
    [|arun; discriminate].
  intros _. exists token, payload. split; [|exact Hv].
  arun. split_acc; reflexivity.
Qed.

Lemma supabase_unconfigured env :
  (forall url, SUPABASE_URL env = Some url -> startsWith "http" url = false)
  \/ (forall key, SUPABASE_KEY env = Some key -> key = EmptyString) ->
  supabase env = None.
Proof.
  unfold supabase. intros [H|H].
  - destruct (SUPABASE_URL env) as [url|]; [|reflexivity].
    rewrite (H url eq_refl), andb_false_r. now destruct (SUPABASE_KEY env).
  - destruct (SUPABASE_URL env) as [url|]; [|reflexivity].
    destruct (SUPABASE_KEY env) as [key|]; [|reflexivity].
    rewrite (H key eq_refl). simpl. now rewrite andb_false_r.
Qed.

(** X22. The profile handler never rejects: a response goes out with
    status 200, 404 or 500, whatever the libraries answer or throw. *)
Theorem profile_always_answers env (req : Req) :
  answered (put_profile env req start) [200; 404; 500]%nat.
Proof.
  arun. destruct (get_field "id" (user req)); simpl;
    [|repeat split; simpl; auto; discriminate].
  destruct (User_findByPk env a) as [[u|]|f]; simpl;
    try (repeat split; simpl; auto; discriminate).
  destruct (file req), (supabase env); simpl;
    split_acc; repeat split; simpl; auto; discriminate.
Qed.

(** X23. Where [SUPABASE_URL] is unset or does not begin with [http], or
    [SUPABASE_KEY] is unset or empty, the storage client is [null] and an
    uploaded file is dropped without an error: nothing is uploaded, and a
    user that is saved has the avatar the table held. *)
Theorem profile_without_storage env (req : Req) :
  (forall url, SUPABASE_URL env = Some url -> startsWith "http" url = false)
  \/ (forall key, SUPABASE_KEY env = Some key -> key = EmptyString) ->
  let out := put_profile env req start in
  existsb is_upload (calls (snd out)) = false
  /\ forall u,
       In (Save u) (calls (snd out)) ->
       exists k u0,
         User_findByPk env k = Returns (Some u0) /\ avatar_url u = avatar_url u0.
Proof.
  intros H. apply supabase_unconfigured in H. unfold put_profile. rewrite H. arun.
  destruct (get_field "id" (user req)) as [k|f]; simpl; [|now split].
  destruct (User_findByPk env k) as [[u0|]|f] eqn:Hk; simpl;
    try (split; [reflexivity|]; intros u [E|[]]; discriminate).
  destruct (file req); simpl;
    (destruct (body req !! "name") as [n|];
       [destruct (Server.truthy (Some n))|]);
    simpl;
    match goal with
    | |- context [User_save env ?x] => destruct (User_save env x)
    end;
    simpl; (split; [reflexivity|]);
    intros u [E|[E|[]]]; try discriminate; injection E as <-;
    exists k, u0; (split; [exact Hk | reflexivity]).
Qed.

(** X24. When the upload answers an error, the profile update is
    abandoned with 500: the user is not saved, so a new name in the same
    request is not stored either. *)
Theorem profile_upload_error_aborts env (req : Req) (k : option json)
    (u : User) (f : File) (client : Client) (message : string) :
  get_field "id" (user req) = Returns k ->
  User_findByPk env k = Returns (Some u) ->
  file req = Some f ->
  supabase env = Some client ->
  let fileName :=
    number_to_string (id u) +:+ "-" +:+ number_to_string (Date_now env) +:+ ".png" in
  storage_upload env client (bucket env) fileName f = Returns (Some message) ->
  put_profile env req start
  = (Returns tt,
     mkAcc (Backend.mkRes 500
              (Some (stringify (Server.error_body "Erro ao atualizar perfil"))))
           [FindByPk k; Upload (bucket env) fileName f] [message]).
Proof.
  intros Hid Hk Hf Hc fileName Hu. subst fileName.
  unfold put_profile, try_catch, lift, perform, throw, mbind, M_bind, start.
  rewrite Hid. cbv beta iota zeta. rewrite Hk. cbv beta iota zeta.
  rewrite Hf, Hc. cbv beta iota zeta. rewrite Hu. reflexivity.
Qed.

(** X25. With a file, a storage client and no bucket configured, the
    file goes to the bucket [avatars] under the name [<id>-<now>.png],
    whatever its type; the user is saved with the public address of that
    object as avatar, and with the name it had when the request gives
    none. *)
Theorem profile_uploads_avatar env (req : Req) (k : option json)
    (u : User) (f : File) (client : Client) :
  get_field "id" (user req) = Returns k ->
  User_findByPk env k = Returns (Some u) ->
  file req = Some f ->
  supabase env = Some client ->
  truthy_text (SUPABASE_BUCKET env) = false ->
  Server.truthy (body req !! "name") = false ->
  let fileName :=
    number_to_string (id u) +:+ "-" +:+ number_to_string (Date_now env) +:+ ".png" in
  let publicUrl := storage_getPublicUrl env client "avatars" fileName in
  let u' := mkUser (id u) (name u) (email u) (password_hash u) (JStr publicUrl) in
  storage_upload env client "avatars" fileName f = Returns None ->
  User_save env u' = Returns tt ->
  put_profile env req start
  = (Returns tt,
     mkAcc (Backend.mkRes 200
              (Some (stringify (JObj [("id", JNum (id u)); ("name", name u);
                                      ("avatar", JStr publicUrl)]))))
           [FindByPk k; Upload "avatars" fileName f;
            GetPublicUrl "avatars" fileName; Save u']
           []).
Proof.
  intros Hid Hk Hf Hc Hb Hn fileName publicUrl u' Hu Hs.
  subst u' publicUrl fileName.
  assert (Hbucket : bucket env = "avatars").
  { unfold bucket. destruct (SUPABASE_BUCKET env) as [b|]; [|reflexivity].
    now rewrite Hb. }
  unfold put_profile, try_catch, lift, perform, throw, mbind, M_bind, mret, M_ret,
    start.
  rewrite Hid, Hbucket. cbv beta iota zeta. rewrite Hk. cbv beta iota zeta.
  rewrite Hf, Hc. cbv beta iota zeta. rewrite Hu. cbv beta iota zeta.
  destruct (body req !! "name") as [n|]; [rewrite Hn|]; cbv beta iota zeta;
    rewrite Hs; reflexivity.
Qed.

(** X26. Without a file, a profile update that gives a truthy name saves
    the user under that name with the avatar unchanged, calls no storage,
    and answers 200 with identifier, name and avatar. *)
Theorem profile_renames env (req : Req) (k : option json) (u : User) (n : json) :
  get_field "id" (user req) = Returns k ->
  User_findByPk env k = Returns (Some u) ->
  file req = None ->
  body req !! "name" = Some n ->
  Server.truthy (Some n) = true ->
  let u' := mkUser (id u) n (email u) (password_hash u) (avatar_url u) in
  User_save env u' = Returns tt ->
  put_profile env req start
  = (Returns tt,
     mkAcc (Backend.mkRes 200
              (Some (stringify (JObj [("id", JNum (id u)); ("name", n);
                                      ("avatar", avatar_url u)]))))
           [FindByPk k; Save u'] []).
Proof.
  intros Hid Hk Hf Hb Hn u' Hs. subst u'.
  unfold put_profile, try_catch, lift, perform, throw, mbind, M_bind, mret, M_ret,
    start.
  rewrite Hid. cbv beta iota zeta. rewrite Hk. cbv beta iota zeta.
  rewrite Hf, Hb, Hn. cbv beta iota zeta. rewrite Hs. reflexivity.
Qed.

(** *** The theorems at concrete requests *)

Lemma auth_requires_second_field_witness :
  authenticateToken sample_env (mkReq (Some "Bearer") ∅ None None)
    (put_profile sample_env) start
  = (Returns tt,
     mkAcc (Backend.mkRes 401
              (Some (stringify (Server.error_body "Token não fornecido"))))
           [] []).
Proof.
  apply (auth_requires_second_field sample_env (mkReq (Some "Bearer") ∅ None None)).
  right. left. exists "Bearer". split; reflexivity.
Defined.

Lemma auth_verifies_second_field_witness :
  authenticateToken sample_env (mkReq (Some "Token t:alice") ∅ None None)
    (fun _ => mret tt) start
  = (Returns tt, mkAcc (Backend.mkRes 200 None) [Verify "t:alice"] []).
Proof.
  exact (auth_verifies_second_field sample_env
           (mkReq (Some "Token t:alice") ∅ None None) (fun _ => mret tt)
           "Token" "t:alice" EmptyString
           eq_refl eq_refl eq_refl ltac:(discriminate) eq_refl).
Defined.

Lemma signin_signs_after_compare_witness :
  exists u,
    User_findOne sample_env
      (body (signin_req "alice@example.org" "secret") !! "email")
    = Returns (Some u)
    /\ bcrypt_compare sample_env
         (body (signin_req "alice@example.org" "secret") !! "password")
         (password_hash u)
       = Returns true.
Proof.
  apply (signin_signs_after_compare sample_env
           (signin_req "alice@example.org" "secret")).
  vm_compute. reflexivity.
Defined.

Lemma signin_unknown_email_witness :
  signin sample_env (signin_req "bob@example.org" "secret") start
  = (Returns tt,
     mkAcc (Backend.mkRes 400
              (Some (stringify (Server.error_body "Usuário não encontrado"))))
           [FindOne (body (signin_req "bob@example.org" "secret") !! "email")] []).
Proof.
  apply (signin_unknown_email sample_env (signin_req "bob@example.org" "secret")).
  vm_compute. reflexivity.
Defined.

Lemma profile_requires_verified_token_witness :
  exists token payload,
    hd_error (calls (snd (put_profile_route sample_env
                            (mkReq (Some "Bearer t:alice") ∅ None None) start)))
    = Some (Verify token)
    /\ jwt_verify sample_env token (JWT_SECRET sample_env) = Some payload.
Proof.
  apply (profile_requires_verified_token sample_env
           (mkReq (Some "Bearer t:alice") ∅ None None)).
  vm_compute. reflexivity.
Defined.

Lemma profile_without_storage_witness :
  let out := put_profile unconfigured_env (profile_req ∅ (Some picture)) start in
  existsb is_upload (calls (snd out)) = false
  /\ forall u,
       In (Save u) (calls (snd out)) ->
       exists k u0,
         User_findByPk unconfigured_env k = Returns (Some u0)
         /\ avatar_url u = avatar_url u0.
Proof.
  apply (profile_without_storage unconfigured_env (profile_req ∅ (Some picture))).
  left. intros url [= <-]. reflexivity.
Defined.

Lemma profile_upload_error_aborts_witness :
  put_profile refusing_env
    (profile_req {["name" := JStr "Alicia"]} (Some picture)) start
  = (Returns tt,
     mkAcc (Backend.mkRes 500
              (Some (stringify (Server.error_body "Erro ao atualizar perfil"))))
           [FindByPk (Some (JNum 7));
            Upload "avatars" "7-1700000000000.png" picture]
           ["Bucket not found"]).
Proof.
  apply (profile_upload_error_aborts refusing_env
           (profile_req {["name" := JStr "Alicia"]} (Some picture))
           (Some (JNum 7)) alice picture
           (mkClient "https://project.supabase.co" "key") "Bucket not found");
    reflexivity.
Defined.

Lemma profile_uploads_avatar_witness :
  put_profile sample_env (profile_req ∅ (Some picture)) start
  = (Returns tt,
     mkAcc (Backend.mkRes 200
              (Some (stringify
                 (JObj [("id", JNum 7); ("name", JStr "Alice");
                        ("avatar",
                         JStr "https://project.supabase.co/storage/v1/object/public/avatars/7-1700000000000.png")]))))
           [FindByPk (Some (JNum 7));
            Upload "avatars" "7-1700000000000.png" picture;
            GetPublicUrl "avatars" "7-1700000000000.png";
            Save (mkUser 7 (JStr "Alice") (JStr "alice@example.org") "h:secret"
                    (JStr "https://project.supabase.co/storage/v1/object/public/avatars/7-1700000000000.png"))]
           []).
Proof.
  apply (profile_uploads_avatar sample_env (profile_req ∅ (Some picture))
           (Some (JNum 7)) alice picture
           (mkClient "https://project.supabase.co" "key"));
    reflexivity.
Defined.

Lemma profile_renames_witness :
  put_profile sample_env (profile_req {["name" := JStr "Alicia"]} None) start
  = (Returns tt,
     mkAcc (Backend.mkRes 200
              (Some (stringify (JObj [("id", JNum 7); ("name", JStr "Alicia");
                                      ("avatar", JNull)]))))
           [FindByPk (Some (JNum 7));
            Save (mkUser 7 (JStr "Alicia") (JStr "alice@example.org") "h:secret"
                    JNull)]
           []).
Proof.
  apply (profile_renames sample_env
           (profile_req {["name" := JStr "Alicia"]} None)
           (Some (JNum 7)) alice (JStr "Alicia"));
    reflexivity.
Defined.

End AccountsFacts.
